(** * Groundwater monitoring: the analysis service and the water-level sync

    A shallow embedding of [monitoring/services.py], of the part of
    [monitoring/models.py] it relies on and of two views of
    [monitoring/views.py].

    Numbers.  Python [int]s are [Z].  Python [float]s come in two readings.
    For sign, bounds, monotonicity, guards and the shape of the results they
    are idealised as exact rationals [Q], and equality of computed values is
    stated with [==].  Where a statement turns on rounding, on infinities or
    on NaN (the trend and its label, the depth-based alert), they are the
    binary64 values themselves, in the module [F64].  A nullable field is an
    [option].  Timestamps are microseconds since the epoch, so that the
    [days] attribute of a difference is a floor division. *)

From Stdlib Require Import ZArith QArith Qabs List String Bool Lia Lqa.
From Stdlib Require Import Permutation Sorted.
From Stdlib Require Import DecimalString.
From Stdlib Require Import SpecFloat.
Import ListNotations.

Open Scope Q_scope.

(** ** Exceptions and the error monad *)

Inductive exn : Type :=
| ZeroDivisionError
| IndexError
| ValueError
| TypeError
| OverflowError
| MultipleObjectsReturned.

Inductive pyresult (A : Type) : Type :=
| Ok (a : A)
| Raise (e : exn).

Arguments Ok {A} a.
Arguments Raise {A} e.

Definition bind {A B : Type} (m : pyresult A) (k : A -> pyresult B) : pyresult B :=
  match m with
  | Ok a => k a
  | Raise e => Raise e
  end.

Notation "x <- m ;; k" := (bind m (fun x => k))
  (at level 61, m at next level, right associativity).

(** ** Arithmetic helpers *)

Definition Qltb (x y : Q) : bool := negb (Qle_bool y x).

Definition Qgtb (x y : Q) : bool := Qltb y x.

(** True division [x / y]: raises on a zero divisor. *)
Definition py_div (x y : Q) : pyresult Q :=
  if Qeq_bool y 0 then Raise ZeroDivisionError else Ok (x / y).

(** The builtin [sum]: starts from [0] and adds from the left. *)
Definition py_sum (l : list Q) : Q := fold_left Qplus l 0.

Definition py_sum_int (l : list Z) : Z := fold_left Z.add l 0%Z.

(** [l[0]] *)
Definition py_first {A : Type} (l : list A) : pyresult A :=
  match l with
  | [] => Raise IndexError
  | x :: _ => Ok x
  end.

(** [l[-1]] *)
Definition py_last {A : Type} (l : list A) : pyresult A :=
  match l with
  | [] => Raise IndexError
  | x :: t => Ok (last t x)
  end.

(** Truthiness of a nullable float: [None] and [0.0] are false. *)
Definition truthy (x : option Q) : bool :=
  match x with
  | None => false
  | Some v => negb (Qeq_bool v 0)
  end.

(** ** Data model ([models.py]) *)

Record DWLRStation : Type := mkStation {
  station_code : string;
  well_depth : option Q;
  elevation : option Q;
  last_data_update : option Z
}.

Record WaterLevel : Type := mkWaterLevel {
  station : string;
  timestamp : Z;
  depth : Q;
  water_level_elevation : option Q;
  data_source : string
}.

Definition us_per_day : Z := 86400000000.

(** [(a - b).days] for two timestamps: timedelta normalisation floors. *)
Definition days_between (a b : Z) : Z := ((a - b) / us_per_day)%Z.

(** ** [sorted(water_levels, key=lambda x: x.timestamp)]

    The builtin sort is stable; a stable insertion sort has the same result. *)

Fixpoint insert_by_timestamp (x : WaterLevel) (l : list WaterLevel) : list WaterLevel :=
  match l with
  | [] => [x]
  | y :: t =>
      if (timestamp x <=? timestamp y)%Z then x :: y :: t
      else y :: insert_by_timestamp x t
  end.

Definition sorted_by_timestamp (l : list WaterLevel) : list WaterLevel :=
  fold_right insert_by_timestamp [] l.

(** ** [GroundwaterAnalysisService.calculate_recharge] *)

Record RechargeResult : Type := mkRecharge {
  estimated_recharge : option Q;
  recharge_rate : option Q
}.

Definition specific_yield : Q := 15 # 100.

(** The loop [for i in range(1, len(sorted_levels))], carrying
    [(total_rise, rise_periods)]; [prev] is [sorted_levels[i-1]]. *)
Fixpoint rise_loop (prev : WaterLevel) (rest : list WaterLevel)
         (acc : Q * nat) : Q * nat :=
  match rest with
  | [] => acc
  | cur :: rest' =>
      let depth_change := depth prev - depth cur in
      let acc' :=
        if Qgtb depth_change 0
        then (fst acc + depth_change, S (snd acc))
        else acc in
      rise_loop cur rest' acc'
  end.

Definition rise_totals (sorted_levels : list WaterLevel) : Q * nat :=
  match sorted_levels with
  | [] => (0, O)
  | first :: rest => rise_loop first rest (0, O)
  end.

Definition calculate_recharge (water_levels : list WaterLevel)
           (st : DWLRStation) : pyresult RechargeResult :=
  if (List.length water_levels <? 2)%nat then
    Ok {| estimated_recharge := None; recharge_rate := None |}
  else
    let sorted_levels := sorted_by_timestamp water_levels in
    let '(total_rise, rise_periods) := rise_totals sorted_levels in
    let estimated_recharge :=
      if (0 <? rise_periods)%nat then total_rise * specific_yield else 0 in
    rate <-
      match sorted_levels with
      | [] => Ok 0
      | _ :: _ =>
          last_ <- py_last sorted_levels ;;
          first <- py_first sorted_levels ;;
          time_span_years <-
            py_div (inject_Z (days_between (timestamp last_) (timestamp first)))
                   (36525 # 100) ;;
          if Qgtb time_span_years 0 then
            q <- py_div estimated_recharge time_span_years ;;
            Ok (q * 1000)
          else Ok 0
      end ;;
    Ok {| estimated_recharge := Some estimated_recharge;
          recharge_rate := Some rate |}.

(** The recharge estimate as the specification words it. *)

Definition positive_part (x : Q) : Q := if Qgtb x 0 then x else 0.

Fixpoint consecutive_pairs {A : Type} (l : list A) : list (A * A) :=
  match l with
  | a :: (b :: _) as t => (a, b) :: consecutive_pairs t
  | _ => []
  end.

Definition depth_decrease (p : WaterLevel * WaterLevel) : Q :=
  depth (fst p) - depth (snd p).

Fixpoint Qsum (l : list Q) : Q :=
  match l with
  | [] => 0
  | x :: t => x + Qsum t
  end.

(** ** [GroundwaterAnalysisService.calculate_storage] *)

Record StorageResult : Type := mkStorage {
  current_storage : option Q;
  available_storage : option Q;
  storage_percentage : option Q
}.

Definition no_storage : StorageResult :=
  {| current_storage := None; available_storage := None;
     storage_percentage := None |}.

Definition calculate_storage (st : DWLRStation) (current_depth : Q)
  : pyresult StorageResult :=
  match well_depth st with
  | None => Ok no_storage
  | Some wd =>
      if Qeq_bool wd 0 then Ok no_storage
      else
        let water_column := wd - current_depth in
        let water_column := if Qltb water_column 0 then 0 else water_column in
        let current_storage := water_column * specific_yield in
        let max_storage := wd * specific_yield in
        let available_storage := max_storage - current_storage in
        pct <-
          (if Qgtb max_storage 0 then
             q <- py_div current_storage max_storage ;; Ok (q * 100)
           else Ok 0) ;;
        Ok {| current_storage := Some current_storage;
              available_storage := Some available_storage;
              storage_percentage := Some pct |}
  end.

(** ** [GroundwaterAnalysisService.analyze_trend] *)

Record TrendResult : Type := mkTrend {
  trend : string;
  trend_magnitude : Q
}.

(** [times]: whole days since the first sorted reading. *)
Definition day_offsets (first : WaterLevel) (sorted_levels : list WaterLevel)
  : list Z :=
  map (fun wl => days_between (timestamp wl) (timestamp first)) sorted_levels.

(** The guarded slope of the regression line.  [n] is
    [len(sorted_levels)], which is also the length of [times]. *)
Definition trend_slope (times : list Z) (depths : list Q) : pyresult Q :=
  let n := Z.of_nat (List.length times) in
  let sum_t := py_sum_int times in
  let sum_d := py_sum depths in
  let sum_td :=
    py_sum (map (fun p => inject_Z (fst p) * snd p) (combine times depths)) in
  let sum_t2 := py_sum_int (map (fun t => t * t)%Z times) in
  if negb (n * sum_t2 - sum_t * sum_t =? 0)%Z then
    py_div (inject_Z n * sum_td - inject_Z sum_t * sum_d)
           (inject_Z (n * sum_t2 - sum_t * sum_t))
  else Ok 0.

Definition classify_trend (slope : Q) : TrendResult :=
  let trend_magnitude := Qabs (slope * (36525 # 100)) in
  let trend :=
    if Qltb trend_magnitude (1 # 10) then "stable"%string
    else if Qltb slope 0 then "rising"%string
    else "falling"%string in
  {| trend := trend; trend_magnitude := trend_magnitude |}.

Definition analyze_trend (water_levels : list WaterLevel)
  : pyresult TrendResult :=
  if (List.length water_levels <? 2)%nat then
    Ok {| trend := "stable"; trend_magnitude := 0 |}
  else
    let sorted_levels := sorted_by_timestamp water_levels in
    let depths := map depth sorted_levels in
    first <- py_first sorted_levels ;;
    let times := day_offsets first sorted_levels in
    slope <- trend_slope times depths ;;
    Ok (classify_trend slope).

(** ** [GroundwaterAnalysisService.determine_alert_status] *)

Definition determine_alert_status (storage_percentage : option Q)
           (trend : string) (current_depth : Q) (well_depth : option Q)
  : pyresult string :=
  match storage_percentage with
  | None =>
      match well_depth with
      | None => Ok "normal"%string
      | Some wd =>
          if Qeq_bool wd 0 then Ok "normal"%string
          else
            q <- py_div current_depth wd ;;
            let depth_percentage := q * 100 in
            if Qgtb depth_percentage 80 then Ok "critical"%string
            else if Qgtb depth_percentage 60 then Ok "warning"%string
            else Ok "normal"%string
      end
  | Some sp =>
      if Qltb sp 20 then Ok "critical"%string
      else if Qltb sp 40 then Ok "warning"%string
      else if Qgtb sp 70 then Ok "good"%string
      else Ok "normal"%string
  end.

(** The least-squares line as the specification words it: the slope of a
    line whose sum of squared residuals no other line undercuts. *)

Definition residual (a b : Q) (p : Z * Q) : Q :=
  snd p - (a + b * inject_Z (fst p)).

Definition sse (a b : Q) (pts : list (Z * Q)) : Q :=
  Qsum (map (fun p => residual a b p * residual a b p) pts).

Definition is_ols_slope (b : Q) (pts : list (Z * Q)) : Prop :=
  exists a, forall a' b', sse a b pts <= sse a' b' pts.

(** The (day-offset, depth) pairs of the sorted readings. *)
Definition trend_points (water_levels : list WaterLevel) : list (Z * Q) :=
  let sorted_levels := sorted_by_timestamp water_levels in
  match sorted_levels with
  | [] => []
  | first :: _ =>
      combine (day_offsets first sorted_levels) (map depth sorted_levels)
  end.

(** A reading of "fewer than two points is the only edge case handled": from
    two readings on, no routine answers with a null field. *)
Definition nulls_only_below_two_readings : Prop :=
  forall (wls : list WaterLevel) (st : DWLRStation) (cd : Q),
    (2 <= List.length wls)%nat ->
    (exists r, calculate_recharge wls st = Ok r /\
               estimated_recharge r <> None /\ recharge_rate r <> None) /\
    (exists s, calculate_storage st cd = Ok s /\ storage_percentage s <> None).

(** ** The water-level table and [CGWBAPIService.sync_water_levels] *)

(** Values of the incoming JSON-like dicts. *)
Inductive pyvalue : Type :=
| PyNone
| PyStr (s : string)
| PyInt (z : Z)
| PyFloat (q : Q).

Definition value_truthy (v : pyvalue) : bool :=
  match v with
  | PyNone => false
  | PyStr s => negb (String.eqb s "")
  | PyInt z => negb (z =? 0)%Z
  | PyFloat q => negb (Qeq_bool q 0)
  end.

(** [a or b] *)
Definition py_or (a b : pyvalue) : pyvalue :=
  if value_truthy a then a else b.

Definition pydict : Type := list (string * pyvalue).

(** [d.get(k)] *)
Fixpoint dict_get (d : pydict) (k : string) : pyvalue :=
  match d with
  | [] => PyNone
  | (k', v) :: t => if String.eqb k k' then v else dict_get t k
  end.

(** The database as far as the sync touches it: the rows of the water-level
    table in insertion order, and the number of clock readings taken. *)
Record world : Type := mkWorld {
  rows : list WaterLevel;
  ticks : nat
}.

Definition row_key (wl : WaterLevel) : string * Z :=
  (station wl, timestamp wl).

Definition row_matches (code : string) (ts : Z) (wl : WaterLevel) : bool :=
  String.eqb (station wl) code && (timestamp wl =? ts)%Z.

(** The table constraint [unique_together = [['station', 'timestamp']]]. *)
Definition unique_rows (l : list WaterLevel) : Prop :=
  NoDup (map row_key l).

(** [WaterLevel.objects.update_or_create(station=, timestamp=, defaults=)]:
    the framework looks the row up by the two keys, creates it when there is
    none, overwrites the default fields when there is one, and raises when
    the lookup is ambiguous. *)
Definition set_defaults (code : string) (ts : Z) (d : Q)
           (wle : option Q) (src : string) (wl : WaterLevel) : WaterLevel :=
  if row_matches code ts wl
  then mkWaterLevel (station wl) (timestamp wl) d wle src
  else wl.

Definition update_or_create (code : string) (ts : Z) (d : Q)
           (wle : option Q) (src : string) (l : list WaterLevel)
  : pyresult (bool * list WaterLevel) :=
  match filter (row_matches code ts) l with
  | [] => Ok (true, l ++ [mkWaterLevel code ts d wle src])
  | [_] => Ok (false, map (set_defaults code ts d wle src) l)
  | _ :: _ :: _ => Raise MultipleObjectsReturned
  end.

Section Sync.

(** [datetime.fromisoformat] after the [Z] replacement, with the
    [strptime] fallback; [None] when both reject the string. *)
Variable parse_timestamp : string -> option Z.

(** [float] on a string; [None] when it rejects it. *)
Variable parse_float : string -> option Q.

(** The successive readings of [timezone.now()]. *)
Variable now : nat -> Z.

Definition timezone_now (w : world) : Z * world :=
  (now (ticks w), {| rows := rows w; ticks := S (ticks w) |}).

(** [float(v)] *)
Definition py_float (v : pyvalue) : pyresult Q :=
  match v with
  | PyNone => Raise TypeError
  | PyStr s =>
      match parse_float s with
      | Some q => Ok q
      | None => Raise ValueError
      end
  | PyInt z => Ok (inject_Z z)
  | PyFloat q => Ok q
  end.

(** One pass of the loop body, carrying the table and [count]. *)
Definition sync_record (st : DWLRStation) (data : pydict)
           (w : world) (count : nat) : pyresult (world * nat) :=
  let timestamp_str :=
    py_or (py_or (dict_get data "timestamp") (dict_get data "date"))
          (dict_get data "datetime") in
  tw <-
    match timestamp_str with
    | PyStr s =>
        match parse_timestamp s with
        | Some t => Ok (t, w)
        | None => Raise ValueError
        end
    | _ => Ok (timezone_now w)
    end ;;
  let '(ts, w1) := tw in
  d <- py_float (py_or (py_or (dict_get data "depth")
                              (dict_get data "water_level")) (PyInt 0)) ;;
  let water_level_elevation :=
    match elevation st with
    | Some e => if negb (Qeq_bool e 0) then Some (e - d) else None
    | None => None
    end in
  res <- update_or_create (station_code st) ts d water_level_elevation
                          "CGWB_API" (rows w1) ;;
  let '(created, l) := res in
  Ok ({| rows := l; ticks := ticks w1 |},
      if created then S count else count).

Fixpoint sync_loop (st : DWLRStation) (batch : list pydict)
         (w : world) (count : nat) : pyresult (world * nat) :=
  match batch with
  | [] => Ok (w, count)
  | data :: rest =>
      wc <- sync_record st data w count ;;
      sync_loop st rest (fst wc) (snd wc)
  end.

(** The whole call.  The loop runs inside [transaction.atomic()]: an
    exception leaves the table as it was before the call (the clock readings
    taken by the failed call are not kept either). *)
Definition sync_water_levels (st : DWLRStation) (batch : list pydict)
           (w : world) : pyresult (nat * DWLRStation) * world :=
  match sync_loop st batch w O with
  | Ok (w1, count) =>
      let '(t, w2) := timezone_now w1 in
      (Ok (count, {| station_code := station_code st;
                     well_depth := well_depth st;
                     elevation := elevation st;
                     last_data_update := Some t |}),
       w2)
  | Raise e => (Raise e, w)
  end.

End Sync.

(** ** Relations and sample data used in the statements *)

Definition timestamp_le (a b : WaterLevel) : Prop :=
  (timestamp a <= timestamp b)%Z.

Definition sample_station : DWLRStation :=
  {| station_code := "STN1001"; well_depth := Some 10;
     elevation := Some 900; last_data_update := None |}.

Definition bare_station : DWLRStation :=
  {| station_code := "STN1002"; well_depth := None;
     elevation := None; last_data_update := None |}.

Definition reading (day : Z) (d : Q) : WaterLevel :=
  {| station := "STN1001"; timestamp := (day * us_per_day)%Z; depth := d;
     water_level_elevation := None; data_source := "CGWB_API" |}.

Definition sample_readings : list WaterLevel :=
  [reading 2 19; reading 0 20; reading 1 18].

(** Sums over a list of (day-offset, depth) points, by structural recursion. *)

Fixpoint Zsum (l : list Z) : Z :=
  match l with
  | [] => 0%Z
  | x :: t => (x + Zsum t)%Z
  end.

Definition pt_count (pts : list (Z * Q)) : Q :=
  inject_Z (Z.of_nat (List.length pts)).

Definition pt_sum_t (pts : list (Z * Q)) : Q :=
  Qsum (map (fun p => inject_Z (fst p)) pts).

Definition pt_sum_d (pts : list (Z * Q)) : Q :=
  Qsum (map snd pts).

Definition pt_sum_td (pts : list (Z * Q)) : Q :=
  Qsum (map (fun p => inject_Z (fst p) * snd p) pts).

Definition pt_sum_t2 (pts : list (Z * Q)) : Q :=
  Qsum (map (fun p => inject_Z (fst p) * inject_Z (fst p)) pts).

(** Sums of residuals of the line [a + b t], for the normal equations. *)

Definition sum_residual (a b : Q) (pts : list (Z * Q)) : Q :=
  Qsum (map (residual a b) pts).

Definition sum_t_residual (a b : Q) (pts : list (Z * Q)) : Q :=
  Qsum (map (fun p => inject_Z (fst p) * residual a b p) pts).

Definition sum_sq_shift (da db : Q) (pts : list (Z * Q)) : Q :=
  Qsum (map (fun p => (da + db * inject_Z (fst p))
                      * (da + db * inject_Z (fst p))) pts).

(** The denominator of the slope, in integers as the code computes it. *)
Definition slope_denominator (times : list Z) : Z :=
  let n := Z.of_nat (List.length times) in
  let sum_t := py_sum_int times in
  let sum_t2 := py_sum_int (map (fun t => t * t)%Z times) in
  (n * sum_t2 - sum_t * sum_t)%Z.

Definition same_day_readings : list WaterLevel :=
  [ {| station := "STN1001"; timestamp := 3600000000; depth := 18;
       water_level_elevation := None; data_source := "CGWB_API" |};
    {| station := "STN1001"; timestamp := 0; depth := 20;
       water_level_elevation := None; data_source := "CGWB_API" |} ].

Definition sample_parse_timestamp (s : string) : option Z :=
  if String.eqb s "1970-01-02T00:00:00" then Some us_per_day else None.

Definition sample_parse_float (s : string) : option Q := None.

Definition sample_now (n : nat) : Z := (7 * us_per_day + Z.of_nat n)%Z.

Definition sample_batch : list pydict :=
  [ [("timestamp", PyStr "1970-01-02T00:00:00"); ("depth", PyFloat 21)];
    [("water_level", PyFloat 22)] ]%string.

Definition sample_world : world :=
  {| rows := sample_readings; ticks := O |}.

(** The whole days between the first and the last sorted reading, as
    [calculate_recharge] takes them for the annual rate. *)
Definition series_span_days (water_levels : list WaterLevel) : Z :=
  match sorted_by_timestamp water_levels with
  | [] => 0%Z
  | first :: rest =>
      days_between (timestamp (last rest first)) (timestamp first)
  end.

(** The two values [sync_water_levels] reads from a record. *)
Definition record_timestamp_value (data : pydict) : pyvalue :=
  py_or (py_or (dict_get data "timestamp") (dict_get data "date"))
        (dict_get data "datetime").

Definition record_depth_value (data : pydict) : pyvalue :=
  py_or (py_or (dict_get data "depth") (dict_get data "water_level"))
        (PyInt 0).

(** The readings of one station, in table order. *)
Definition rows_of (code : string) (l : list WaterLevel) : list WaterLevel :=
  filter (fun wl => String.eqb (station wl) code) l.

(** The elevation [sync_water_levels] stores with a depth. *)
Definition elevation_of (st : DWLRStation) (d : Q) : option Q :=
  match elevation st with
  | Some e => if negb (Qeq_bool e 0) then Some (e - d) else None
  | None => None
  end.

(** A record takes its timestamp from the payload, not from the clock. *)
Definition payload_timestamp (data : pydict) : bool :=
  match record_timestamp_value data with
  | PyStr _ => true
  | _ => false
  end.

(** The writes a batch amounts to once its strings are parsed: the key
    timestamp and the fields handed to [update_or_create]. *)
Record sync_op : Type := mkOp {
  op_ts : Z;
  op_depth : Q;
  op_wle : option Q
}.

Fixpoint apply_ops (code : string) (ops : list sync_op)
         (l : list WaterLevel) (count : nat)
  : pyresult (list WaterLevel * nat) :=
  match ops with
  | [] => Ok (l, count)
  | op :: rest =>
      res <- update_or_create code (op_ts op) (op_depth op) (op_wle op)
                              "CGWB_API" l ;;
      apply_ops code rest (snd res) (if fst res then S count else count)
  end.

(** All overwrites of a batch applied to one row, first write first. *)
Definition write_all (code : string) (ops : list sync_op)
           (wl : WaterLevel) : WaterLevel :=
  fold_left
    (fun r op =>
       set_defaults code (op_ts op) (op_depth op) (op_wle op) "CGWB_API" r)
    ops wl.

Definition payload_batch : list pydict :=
  [ [("timestamp", PyStr "1970-01-02T00:00:00"); ("depth", PyFloat 21)];
    [("date", PyStr "1970-01-02T00:00:00"); ("water_level", PyInt 23)] ]%string.

Definition broken_batch : list pydict :=
  [ [("timestamp", PyStr "1970-01-02T00:00:00"); ("depth", PyFloat 21)];
    [("timestamp", PyStr "yesterday"); ("depth", PyFloat 22)] ]%string.

(** ** [GroundwaterAnalysisService.calculate_resource_metrics] *)

(** The [GroundwaterResource] row; dates are day numbers.  A field the
    constructor is not given keeps the model default: null for the nullable
    floats, the empty string for [trend]. *)
Module GroundwaterResource.

Record t : Type := mk {
  station : string;
  calculation_date : Z;
  period_start : Z;
  period_end : Z;
  estimated_recharge : option Q;
  recharge_rate : option Q;
  current_storage : option Q;
  available_storage : option Q;
  storage_percentage : option Q;
  trend : string;
  trend_magnitude : option Q;
  alert_status : string
}.

End GroundwaterResource.

(** [dt.date()] *)
Definition date_of (ts : Z) : Z := (ts / us_per_day)%Z.

(** The filter [station=, timestamp__gte=, timestamp__lte=]. *)
Definition in_period (code : string) (start_date end_date : Z)
           (wl : WaterLevel) : bool :=
  String.eqb (station wl) code
  && (start_date <=? timestamp wl)%Z && (timestamp wl <=? end_date)%Z.

(** The query of [calculate_resource_metrics]: the readings of the station
    between [start_date] and [end_date], ordered by timestamp. *)
Definition period_readings (code : string) (start_date end_date : Z)
           (l : list WaterLevel) : list WaterLevel :=
  sorted_by_timestamp (filter (in_period code start_date end_date) l).

Section Metrics.

Variable now : nat -> Z.

(** The call for a period whose start date is a datetime
    ([representable_period] below).  For any other [period_days] the second
    line of the method raises [OverflowError] before the table is read; the
    view calls the method with the default of 365 days. *)
Definition calculate_resource_metrics (st : DWLRStation) (period_days : Z)
           (w : world) : pyresult GroundwaterResource.t * world :=
  let '(end_date, w1) := timezone_now now w in
  let start_date := (end_date - period_days * us_per_day)%Z in
  let water_levels :=
    period_readings (station_code st) start_date end_date (rows w1) in
  (match water_levels with
   | [] =>
       Ok {| GroundwaterResource.station := station_code st;
             GroundwaterResource.calculation_date := date_of end_date;
             GroundwaterResource.period_start := date_of start_date;
             GroundwaterResource.period_end := date_of end_date;
             GroundwaterResource.estimated_recharge := None;
             GroundwaterResource.recharge_rate := None;
             GroundwaterResource.current_storage := None;
             GroundwaterResource.available_storage := None;
             GroundwaterResource.storage_percentage := None;
             GroundwaterResource.trend := "";
             GroundwaterResource.trend_magnitude := None;
             GroundwaterResource.alert_status := "normal" |}
   | _ :: _ =>
       recharge_data <- calculate_recharge water_levels st ;;
       latest <- py_last water_levels ;;
       let current_depth := depth latest in
       storage_data <- calculate_storage st current_depth ;;
       trend_data <- analyze_trend water_levels ;;
       alert_status <-
         determine_alert_status (storage_percentage storage_data)
                                (trend trend_data) current_depth
                                (well_depth st) ;;
       Ok {| GroundwaterResource.station := station_code st;
             GroundwaterResource.calculation_date := date_of end_date;
             GroundwaterResource.period_start := date_of start_date;
             GroundwaterResource.period_end := date_of end_date;
             GroundwaterResource.estimated_recharge :=
               estimated_recharge recharge_data;
             GroundwaterResource.recharge_rate := recharge_rate recharge_data;
             GroundwaterResource.current_storage :=
               current_storage storage_data;
             GroundwaterResource.available_storage :=
               available_storage storage_data;
             GroundwaterResource.storage_percentage :=
               storage_percentage storage_data;
             GroundwaterResource.trend := trend trend_data;
             GroundwaterResource.trend_magnitude :=
               Some (trend_magnitude trend_data);
             GroundwaterResource.alert_status := alert_status |}
   end, w1).

End Metrics.

(** ** [DWLRStationViewSet.insights] ([views.py]) *)

Record Insight : Type := mkInsight {
  priority : string;
  title : string;
  message : string;
  action : string
}.

(** An integer inside an f-string. *)
Definition format_count (n : nat) : string :=
  NilEmpty.string_of_uint (Nat.to_uint n).

(** [GroundwaterResource.objects.filter(alert_status=label).count()] *)
Definition count_alert (label : string)
           (resources : list GroundwaterResource.t) : nat :=
  List.length
    (filter (fun r => String.eqb (GroundwaterResource.alert_status r) label)
            resources).

(** [GroundwaterResource.objects.values('station').distinct().count()] *)
Definition count_stations_with_resources
           (resources : list GroundwaterResource.t) : nat :=
  List.length (nodup string_dec (map GroundwaterResource.station resources)).

(** The body of the view on the resource table; [total] is the number of
    active stations, the one figure it reads from the station table. *)
Definition insights (resources : list GroundwaterResource.t) (total : nat)
  : list Insight :=
  let critical := count_alert "critical" resources in
  let warning := count_alert "warning" resources in
  let total_resources := count_stations_with_resources resources in
  let insights := [] in
  let insights :=
    if (0 <? critical)%nat then
      insights ++
      [ {| priority := "high";
           title := "Critical groundwater stress";
           message :=
             format_count critical ++
             " station(s) in critical status. Recommend urgent assessment and demand management in affected areas.";
           action :=
             "Prioritize recharge augmentation and regulated extraction in critical zones." |} ]
    else insights in
  let insights :=
    if (0 <? warning)%nat then
      insights ++
      [ {| priority := "medium";
           title := "Declining groundwater levels";
           message :=
             format_count warning ++
             " station(s) show warning. Monitor trends and consider seasonal rationing or recharge measures.";
           action :=
             "Review extraction patterns and promote rainwater harvesting in warning zones." |} ]
    else insights in
  let insights :=
    if (0 <? total)%nat && (total_resources =? 0)%nat then
      insights ++
      [ {| priority := "info";
           title := "Resource evaluation pending";
           message :=
             "Stations exist but resource metrics are not yet computed. Run sync or ensure water level data is available.";
           action :=
             "Use Sync Real-time Data on stations or run: python manage.py seed_sample_data" |} ]
    else insights in
  let insights :=
    if (3 <=? total)%nat && (critical + warning =? 0)%nat then
      insights ++
      [ {| priority := "low";
           title := "Stable resource picture";
           message :=
             "No critical or warning alerts. Continue routine monitoring and maintain recharge initiatives.";
           action :=
             "Sustain current management; use trends to plan long-term interventions." |} ]
    else insights in
  let insights :=
    match insights with
    | [] =>
        insights ++
        [ {| priority := "info";
             title := "Add DWLR data";
             message :=
               "Add stations and water level data to enable real-time groundwater evaluation and insights.";
             action := "Run: python manage.py seed_sample_data" |} ]
    | _ :: _ => insights
    end in
  insights.

(** ** [DWLRStationViewSet.sync_all_stations] ([views.py]) *)

(** The two tables the view writes to. *)
Record site : Type := mkSite {
  db : world;
  resources : list GroundwaterResource.t
}.

Record tally : Type := mkTally {
  total_records : nat;
  success_count : nat;
  failed_count : nat
}.

Module SyncAllResponse.

Record t : Type := mk {
  status : string;
  message : string;
  total_records_synced : nat;
  successful_stations : nat;
  failed_stations : nat;
  timestamp : Z
}.

End SyncAllResponse.

Section SyncAll.

Variable parse_timestamp : string -> option Z.
Variable parse_float : string -> option Q.
Variable now : nat -> Z.

(** [api_service.fetch_water_level_data(code, start_date, end_date)]: the
    remote service or its mock; it catches its own errors and answers with
    a list.  The first argument numbers the call. *)
Variable fetch : nat -> string -> Z -> Z -> list pydict.

(** The body of the loop over the stations, with its [try] and [except]. *)
Definition sync_all_step (s : site * tally) (st : DWLRStation)
  : site * tally :=
  let '(x, t) := s in
  let '(end_date, w1) := timezone_now now (db x) in
  let start_date := (end_date - 30 * us_per_day)%Z in
  let water_level_data :=
    fetch (ticks (db x)) (station_code st) start_date end_date in
  match water_level_data with
  | [] =>
      ({| db := w1; resources := resources x |},
       {| total_records := total_records t;
          success_count := success_count t;
          failed_count := S (failed_count t) |})
  | _ :: _ =>
      match sync_water_levels parse_timestamp parse_float now
                              st water_level_data w1 with
      | (Raise _, w2) =>
          ({| db := w2; resources := resources x |},
           {| total_records := total_records t;
              success_count := success_count t;
              failed_count := S (failed_count t) |})
      | (Ok (count, st'), w2) =>
          match calculate_resource_metrics now st' 365 w2 with
          | (Raise _, w3) =>
              ({| db := w3; resources := resources x |},
               {| total_records := (total_records t + count)%nat;
                  success_count := S (success_count t);
                  failed_count := S (failed_count t) |})
          | (Ok resource, w3) =>
              ({| db := w3; resources := resources x ++ [resource] |},
               {| total_records := (total_records t + count)%nat;
                  success_count := S (success_count t);
                  failed_count := failed_count t |})
          end
      end
  end.

(** The view on the list of active stations. *)
Definition sync_all_stations (stations : list DWLRStation) (x : site)
  : SyncAllResponse.t * site :=
  let total_stations := List.length stations in
  let '(x1, t) :=
    fold_left sync_all_step stations
              (x, {| total_records := O; success_count := O;
                     failed_count := O |}) in
  let '(stamp, w2) := timezone_now now (db x1) in
  ({| SyncAllResponse.status := "success";
      SyncAllResponse.message :=
        "Synced " ++ format_count (success_count t) ++ " out of "
        ++ format_count total_stations ++ " stations";
      SyncAllResponse.total_records_synced := total_records t;
      SyncAllResponse.successful_stations := success_count t;
      SyncAllResponse.failed_stations := failed_count t;
      SyncAllResponse.timestamp := stamp |},
   {| db := w2; resources := resources x1 |}).

End SyncAll.

(** ** The sync, record by record, as the specification words it *)

(** The reading a record with timestamp [ts] and depth [d] stands for. *)
Definition stored_reading (st : DWLRStation) (ts : Z) (d : Q) : WaterLevel :=
  mkWaterLevel (station_code st) ts d (elevation_of st d) "CGWB_API".

(** [new] is the row [old] after the reading for [(st, ts)] has been
    updated: the row with that station and timestamp now is the record's
    reading, every other row is as it was. *)
Definition overwritten (st : DWLRStation) (ts : Z) (d : Q)
           (old new : WaterLevel) : Prop :=
  (row_key old = (station_code st, ts) -> new = stored_reading st ts d) /\
  (row_key old <> (station_code st, ts) -> new = old).

Section SyncSpec.

Variable parse_timestamp : string -> option Z.
Variable parse_float : string -> option Q.
Variable now : nat -> Z.

(** One incoming record takes the table from [w] to [w'].  Its timestamp is
    the parsed string the record carries, or the clock reading taken for it
    when it carries none; its depth is the [float] of the depth it carries.
    Either no reading of the station has that timestamp and the record's
    reading is appended ([created]), or one has and it is updated in
    place. *)
Definition record_synced (st : DWLRStation) (data : pydict)
           (w w' : world) (created : bool) : Prop :=
  exists (ts : Z) (d : Q),
    match record_timestamp_value data with
    | PyStr s => parse_timestamp s = Some ts /\ ticks w' = ticks w
    | _ => ts = now (ticks w) /\ ticks w' = S (ticks w)
    end /\
    py_float parse_float (record_depth_value data) = Ok d /\
    if created
    then (forall wl, In wl (rows w) -> row_key wl <> (station_code st, ts)) /\
         rows w' = rows w ++ [stored_reading st ts d]
    else (exists wl, In wl (rows w) /\ row_key wl = (station_code st, ts)) /\
         Forall2 (overwritten st ts d) (rows w) (rows w').

(** The records of a batch synced one after the other, in order; the table
    is unique per (station, timestamp) after each of them, and the number
    counts the readings created. *)
Inductive batch_synced (st : DWLRStation)
  : list pydict -> world -> world -> nat -> Prop :=
| batch_done (w : world) : batch_synced st [] w w O
| batch_record (data : pydict) (rest : list pydict) (w w1 w2 : world)
               (created : bool) (n : nat) :
    record_synced st data w w1 created ->
    unique_rows (rows w1) ->
    batch_synced st rest w1 w2 n ->
    batch_synced st (data :: rest) w w2 (if created then S n else n).

(** A record whose timestamp string, if it carries one, and whose depth can
    be read. *)
Definition record_readable (data : pydict) : Prop :=
  match record_timestamp_value data with
  | PyStr s => parse_timestamp s <> None
  | _ => True
  end /\
  exists d, py_float parse_float (record_depth_value data) = Ok d.

End SyncSpec.

(** ** What a stable sort by a key is *)

(** [s] is [l] sorted by [key] the way the builtin [sorted] does it: the
    same elements, keys in non-decreasing order, and elements with the same
    key in the order they had in [l]. *)
Definition stable_sort_of {A : Type} (key : A -> Z) (l s : list A) : Prop :=
  Permutation l s /\
  StronglySorted (fun a b => (key a <= key b)%Z) s /\
  forall k, filter (fun x => (key x =? k)%Z) s
            = filter (fun x => (key x =? k)%Z) l.

(** The builtin [sorted] with a key, for any element type. *)
Fixpoint insert_by {A : Type} (key : A -> Z) (x : A) (l : list A) : list A :=
  match l with
  | [] => [x]
  | y :: t =>
      if (key x <=? key y)%Z then x :: y :: t
      else y :: insert_by key x t
  end.

Definition sorted_by {A : Type} (key : A -> Z) (l : list A) : list A :=
  fold_right (insert_by key) [] l.

(** ** The recharge estimate, said without the loop *)


(** ** The trend and the alert on binary64 floats

    Where a statement turns on rounding, on infinities or on NaN, the
    floats are the IEEE 754 binary64 values of the interpreter: [spec_float]
    with 53 bits of precision, rounded to nearest, ties to even. *)

Module F64.

Definition float : Type := spec_float.

Definition prec : Z := 53.
Definition emax : Z := 1024.

Definition zero : float := S754_zero false.

Definition add (x y : float) : float := SFadd prec emax x y.
Definition sub (x y : float) : float := SFsub prec emax x y.
Definition mul (x y : float) : float := SFmul prec emax x y.
Definition abs (x : float) : float := SFabs x.
Definition ltb (x y : float) : bool := SFltb x y.
Definition leb (x y : float) : bool := SFleb x y.
Definition eqb (x y : float) : bool := SFeqb x y.

(** The literals [365.25] and [0.1], as the interpreter reads them. *)
Definition c365_25 : float := S754_finite false 6425545952722944 (-44).
Definition c0_1 : float := S754_finite false 7205759403792794 (-56).

(** The int literals [100], [80], [60], [20], [40] and [70] next to a
    float: each is exactly a float. *)
Definition of_small_int (z : Z) : float := binary_normalize prec emax z 0 false.

(** An int where a float is expected: it is rounded to the nearest float,
    and an int that would round to infinity raises. *)
Definition of_int (z : Z) : pyresult float :=
  if (Z.abs z <? 2 ^ 1024 - 2 ^ 970)%Z
  then Ok (binary_normalize prec emax z 0 false)
  else Raise OverflowError.

(** [x / y] on floats: a zero divisor of either sign raises. *)
Definition div (x y : float) : pyresult float :=
  if eqb y zero then Raise ZeroDivisionError
  else Ok (SFdiv prec emax x y).

(** [x / z] for a float and an int.  The int is converted first; the
    converted divisor is zero exactly when the int is. *)
Definition div_int (x : float) (z : Z) : pyresult float :=
  f <- of_int z ;;
  if (z =? 0)%Z then Raise ZeroDivisionError
  else Ok (SFdiv prec emax x f).

(** The builtin [sum] over floats, adding from the left.  The int [0] it
    starts from becomes [0.0] at the first addition. *)
Definition sum_left (l : list float) : float := fold_left add l zero.

(** The builtin [sum] over floats as interpreters from 3.12 on do it: the
    first addition as above, then the rounding errors of the others are
    collected in [c] and added at the end, unless [c] is zero, infinite or
    NaN. *)
Definition is_finite (x : float) : bool :=
  match x with
  | S754_zero _ | S754_finite _ _ _ => true
  | _ => false
  end.

Fixpoint compensated_loop (f_result c : float) (l : list float) : float :=
  match l with
  | [] =>
      if negb (eqb c zero) && is_finite c then add f_result c else f_result
  | x :: rest =>
      let t := add f_result x in
      let c' :=
        if leb (abs x) (abs f_result)
        then add c (add (sub f_result t) x)
        else add c (add (sub x t) f_result) in
      compensated_loop t c' rest
  end.

Definition sum_compensated (l : list float) : float :=
  match l with
  | [] => zero
  | x :: rest => compensated_loop (add zero x) zero rest
  end.

Record WaterLevel : Type := mkWaterLevel {
  station : string;
  timestamp : Z;
  depth : float;
  water_level_elevation : option float;
  data_source : string
}.

Record TrendResult : Type := mkTrend {
  trend : string;
  trend_magnitude : float
}.

(** [times] *)
Definition day_offsets (first : WaterLevel) (sorted_levels : list WaterLevel)
  : list Z :=
  map (fun wl => days_between (timestamp wl) (timestamp first)) sorted_levels.

(** [t * d for t, d in zip(times, depths)] *)
Fixpoint products (times : list Z) (depths : list float)
  : pyresult (list float) :=
  match times, depths with
  | t :: times', d :: depths' =>
      ft <- of_int t ;;
      rest <- products times' depths' ;;
      Ok (mul ft d :: rest)
  | _, _ => Ok []
  end.

Section Trend.

(** The builtin [sum] on a list of floats.  Which additions it performs
    depends on the interpreter ([sum_left], [sum_compensated]); the trend
    is defined, and its properties hold, for any. *)
Variable float_sum : list float -> float.

Definition trend_slope (times : list Z) (depths : list float)
  : pyresult float :=
  let n := Z.of_nat (List.length times) in
  let sum_t := py_sum_int times in
  let sum_d := float_sum depths in
  prods <- products times depths ;;
  let sum_td := float_sum prods in
  let sum_t2 := py_sum_int (map (fun t => t * t)%Z times) in
  if negb (n * sum_t2 - sum_t * sum_t =? 0)%Z then
    fn <- of_int n ;;
    fsum_t <- of_int sum_t ;;
    div_int (sub (mul fn sum_td) (mul fsum_t sum_d))
            (n * sum_t2 - sum_t * sum_t)%Z
  else Ok zero.

Definition classify_trend (slope : float) : TrendResult :=
  let trend_magnitude := abs (mul slope c365_25) in
  let trend :=
    if ltb trend_magnitude c0_1 then "stable"%string
    else if ltb slope zero then "rising"%string
    else "falling"%string in
  {| trend := trend; trend_magnitude := trend_magnitude |}.

(** The int [0] of the short-series answer and of the guarded slope is
    written as the float [0.0], which it equals. *)
Definition analyze_trend (water_levels : list WaterLevel)
  : pyresult TrendResult :=
  if (List.length water_levels <? 2)%nat then
    Ok {| trend := "stable"; trend_magnitude := zero |}
  else
    let sorted_levels := sorted_by timestamp water_levels in
    let depths := map depth sorted_levels in
    first <- py_first sorted_levels ;;
    let times := day_offsets first sorted_levels in
    slope <- trend_slope times depths ;;
    Ok (classify_trend slope).

(** The least-squares slope in closed form,
    [(n Σtd - Σt Σd) / (n Σt² - (Σt)²)], with the sums and the count of the
    day offsets as exact integers and everything that involves a depth in
    floats; 0 when the integer denominator is 0. *)
Fixpoint point_products (pts : list (Z * float)) : pyresult (list float) :=
  match pts with
  | [] => Ok []
  | (t, d) :: rest =>
      ft <- of_int t ;;
      tds <- point_products rest ;;
      Ok (mul ft d :: tds)
  end.

Definition ols_closed_form (pts : list (Z * float)) : pyresult float :=
  let n := Z.of_nat (List.length pts) in
  let st := Zsum (map fst pts) in
  let st2 := Zsum (map (fun p => fst p * fst p)%Z pts) in
  let sd := float_sum (map snd pts) in
  tds <- point_products pts ;;
  let std := float_sum tds in
  if (n * st2 - st * st =? 0)%Z then Ok zero
  else
    fn <- of_int n ;;
    fst_ <- of_int st ;;
    div_int (sub (mul fn std) (mul fst_ sd)) (n * st2 - st * st)%Z.

End Trend.

(** The (whole days since [first], depth) points of a list of readings. *)
Definition day_depth_points (first : WaterLevel) (l : list WaterLevel)
  : list (Z * float) :=
  map (fun wl => (((timestamp wl - timestamp first) / 86400000000)%Z,
                  depth wl)) l.

(** A nullable float is false when it is [None] or a zero of either sign;
    NaN is true. *)
Definition determine_alert_status (storage_percentage : option float)
           (trend : string) (current_depth : float)
           (well_depth : option float) : pyresult string :=
  match storage_percentage with
  | None =>
      match well_depth with
      | None => Ok "normal"%string
      | Some wd =>
          if eqb wd zero then Ok "normal"%string
          else
            q <- div current_depth wd ;;
            let depth_percentage := mul q (of_small_int 100) in
            if ltb (of_small_int 80) depth_percentage
            then Ok "critical"%string
            else if ltb (of_small_int 60) depth_percentage
                 then Ok "warning"%string
                 else Ok "normal"%string
      end
  | Some sp =>
      if ltb sp (of_small_int 20) then Ok "critical"%string
      else if ltb sp (of_small_int 40) then Ok "warning"%string
      else if ltb (of_small_int 70) sp then Ok "good"%string
      else Ok "normal"%string
  end.

(** The exact value of a finite float, in lowest terms. *)
Definition to_Q (x : float) : option Q :=
  match x with
  | S754_zero _ => Some 0
  | S754_finite s m e =>
      Some (Qred (inject_Z (if s then Z.neg m else Z.pos m) * (2 # 1) ^ e))
  | _ => None
  end.

(** Sample readings.  The depths are the floats [20.0], [22.0], [0.2],
    [0.6] and [1e308]. *)
Definition reading (day : Z) (d : float) : WaterLevel :=
  {| station := "STN1001"; timestamp := (day * us_per_day)%Z; depth := d;
     water_level_elevation := None; data_source := "CGWB_API" |}.

Definition d20 : float := S754_finite false 5629499534213120 (-48).
Definition d22 : float := S754_finite false 6192449487634432 (-48).
Definition d0_2 : float := S754_finite false 7205759403792794 (-55).
Definition d0_6 : float := S754_finite false 5404319552844595 (-53).
Definition d1e308 : float := S754_finite false 5010420900022432 971.

(** 20.0 on day 0 and 22.0 twenty years later. *)
Definition twenty_year_readings : list WaterLevel :=
  [reading 0 d20; reading 7305 d22].

(** 0.2 on day 0 and 0.6 four years later. *)
Definition four_year_readings : list WaterLevel :=
  [reading 0 d0_2; reading 1461 d0_6].

(** 1e308 on two consecutive days. *)
Definition overflow_readings : list WaterLevel :=
  [reading 0 d1e308; reading 1 d1e308].

End F64.

(** The least-squares slope of the points in exact arithmetic, when the
    day offsets are not all the same. *)
Definition exact_slope (pts : list (Z * Q)) : Q :=
  (pt_count pts * pt_sum_td pts - pt_sum_t pts * pt_sum_d pts)
  / (pt_count pts * pt_sum_t2 pts - pt_sum_t pts * pt_sum_t pts).

(** The points of [F64.twenty_year_readings] and of
    [F64.four_year_readings], with the exact values of the depths. *)
Definition twenty_year_points : list (Z * Q) :=
  [(0%Z, 20); (7305%Z, 22)].

Definition four_year_points : list (Z * Q) :=
  [(0%Z, 3602879701896397 # 18014398509481984);
   (1461%Z, 5404319552844595 # 9007199254740992)].

(** The points with the depths as the exact values of the floats. *)
Definition exact_points (pts : list (Z * F64.float))
  : list (Z * option Q) :=
  map (fun p => (fst p, F64.to_Q (snd p))) pts.

(** The range of [datetime], in microseconds since the epoch: from
    0001-01-01 00:00:00 to 9999-12-31 23:59:59.999999. *)
Definition datetime_min : Z := -62135596800000000.
Definition datetime_max : Z := 253402300799999999.

(** The periods for which [end_date - timedelta(days=period_days)] is a
    datetime: the number of days is one a [timedelta] can hold, and the
    start date falls within the range of [datetime]. *)
Definition representable_period (end_date period_days : Z) : Prop :=
  (-999999999 <= period_days <= 999999999)%Z /\
  (datetime_min <= end_date - period_days * us_per_day <= datetime_max)%Z.

(** * Properties *)

(** ** Comparisons and sums *)

Lemma Qltb_lt (x y : Q) : Qltb x y = true <-> x < y.
Proof.
  unfold Qltb. rewrite negb_true_iff, <- not_true_iff_false, Qle_bool_iff.
  split; [apply Qnot_le_lt | apply Qlt_not_le].
Qed.

Lemma Qltb_ge (x y : Q) : Qltb x y = false <-> y <= x.
Proof.
  unfold Qltb. rewrite negb_false_iff. apply Qle_bool_iff.
Qed.

Lemma Qgtb_gt (x y : Q) : Qgtb x y = true <-> y < x.
Proof. apply Qltb_lt. Qed.

Lemma Qgtb_le (x y : Q) : Qgtb x y = false <-> x <= y.
Proof. apply Qltb_ge. Qed.

Lemma Qeq_bool_false (x y : Q) : Qeq_bool x y = false <-> ~ x == y.
Proof.
  rewrite <- not_true_iff_false, Qeq_bool_iff. tauto.
Qed.

Lemma py_div_ok (x y : Q) : ~ y == 0 -> py_div x y = Ok (x / y).
Proof.
  intros H. unfold py_div. apply Qeq_bool_false in H. now rewrite H.
Qed.

Lemma Qsum_nonneg (l : list Q) :
  (forall x, In x l -> 0 <= x) -> 0 <= Qsum l.
Proof.
  induction l as [|x l IH]; intros H; simpl.
  - apply Qle_refl.
  - assert (0 <= x) by (apply H; now left).
    assert (0 <= Qsum l) by (apply IH; intros; apply H; now right).
    lra.
Qed.

(** ** The sort *)

Lemma insert_by_timestamp_perm (x : WaterLevel) (l : list WaterLevel) :
  Permutation (x :: l) (insert_by_timestamp x l).
Proof.
  induction l as [|y t IH]; simpl.
  - apply Permutation_refl.
  - destruct (timestamp x <=? timestamp y)%Z.
    + apply Permutation_refl.
    + eapply perm_trans; [apply perm_swap|]. now apply perm_skip.
Qed.

Lemma sorted_by_timestamp_perm (l : list WaterLevel) :
  Permutation l (sorted_by_timestamp l).
Proof.
  induction l as [|x l IH]; simpl.
  - apply perm_nil.
  - eapply perm_trans; [apply perm_skip, IH|].
    apply insert_by_timestamp_perm.
Qed.

Lemma sorted_by_timestamp_length (l : list WaterLevel) :
  List.length (sorted_by_timestamp l) = List.length l.
Proof.
  symmetry. apply Permutation_length, sorted_by_timestamp_perm.
Qed.

Lemma insert_by_timestamp_sorted (x : WaterLevel) (l : list WaterLevel) :
  LocallySorted timestamp_le l ->
  LocallySorted timestamp_le (insert_by_timestamp x l).
Proof.
  induction 1 as [|a|a b l Hl IH Hab]; simpl.
  - constructor.
  - destruct (timestamp x <=? timestamp a)%Z eqn:E.
    + constructor; [constructor|]. now apply Z.leb_le.
    + constructor; [constructor|]. apply Z.leb_gt in E.
      unfold timestamp_le. lia.
  - destruct (timestamp x <=? timestamp a)%Z eqn:E.
    + constructor; [now constructor|]. now apply Z.leb_le.
    + simpl in IH.
      destruct (timestamp x <=? timestamp b)%Z eqn:E'.
      * constructor; [exact IH|]. apply Z.leb_gt in E.
        unfold timestamp_le. lia.
      * constructor; [exact IH | exact Hab].
Qed.

Lemma sorted_by_timestamp_sorted (l : list WaterLevel) :
  LocallySorted timestamp_le (sorted_by_timestamp l).
Proof.
  induction l as [|x l IH]; simpl.
  - constructor.
  - now apply insert_by_timestamp_sorted.
Qed.

(** ** The sort is the stable sort *)

Lemma insert_by_perm {A : Type} (key : A -> Z) (x : A) (l : list A) :
  Permutation (x :: l) (insert_by key x l).
Proof.
  induction l as [|y t IH]; cbn [insert_by]; [reflexivity|].
  destruct (key x <=? key y)%Z; [reflexivity|].
  rewrite perm_swap. now apply perm_skip.
Qed.

Lemma insert_by_sorted {A : Type} (key : A -> Z) (x : A) (l : list A) :
  StronglySorted (fun a b => (key a <= key b)%Z) l ->
  StronglySorted (fun a b => (key a <= key b)%Z) (insert_by key x l).
Proof.
  induction l as [|y t IH]; intros S; cbn [insert_by].
  - constructor; constructor.
  - inversion S as [|? ? St Ft]; subst.
    destruct (key x <=? key y)%Z eqn:E.
    + apply Z.leb_le in E. constructor; [exact S|].
      constructor; [exact E|].
      eapply Forall_impl; [|exact Ft]. cbn. intros; lia.
    + apply Z.leb_gt in E. constructor; [now apply IH|].
      apply (Permutation_Forall (insert_by_perm key x t)).
      constructor; [lia|exact Ft].
Qed.

Lemma insert_by_filter {A : Type} (key : A -> Z) (x : A) (l : list A) (k : Z) :
  filter (fun y => (key y =? k)%Z) (insert_by key x l)
  = filter (fun y => (key y =? k)%Z) (x :: l).
Proof.
  induction l as [|y t IH]; cbn [insert_by]; [reflexivity|].
  destruct (key x <=? key y)%Z eqn:E; [reflexivity|].
  apply Z.leb_gt in E.
  cbn [filter] in *. rewrite IH.
  destruct (key x =? k)%Z eqn:Ex; destruct (key y =? k)%Z eqn:Ey;
    try reflexivity.
  apply Z.eqb_eq in Ex, Ey. lia.
Qed.

Lemma sorted_by_stable {A : Type} (key : A -> Z) (l : list A) :
  stable_sort_of key l (sorted_by key l).
Proof.
  unfold stable_sort_of, sorted_by.
  induction l as [|x t [P [S F]]]; cbn [fold_right].
  - split; [constructor|]. split; [constructor|]. intros k. reflexivity.
  - split; [|split].
    + rewrite <- insert_by_perm. now apply perm_skip.
    + now apply insert_by_sorted.
    + intros k. rewrite insert_by_filter. cbn [filter]. now rewrite F.
Qed.



(** ** Recharge *)


Lemma rise_loop_total (rest : list WaterLevel) :
  forall prev acc,
    fst (rise_loop prev rest acc) ==
    fst acc + Qsum (map (fun p => positive_part (depth_decrease p))
                        (consecutive_pairs (prev :: rest))).
Proof.
  induction rest as [|cur rest IH]; intros prev acc.
  - simpl. ring.
  - cbn [rise_loop]. rewrite IH.
    change (consecutive_pairs (prev :: cur :: rest))
      with ((prev, cur) :: consecutive_pairs (cur :: rest)).
    set (tail_sum := Qsum (map _ (consecutive_pairs (cur :: rest)))).
    cbn [map Qsum]. fold tail_sum.
    unfold positive_part, depth_decrease. cbn [fst snd].
    destruct (Qgtb (depth prev - depth cur) 0); cbn [fst]; ring.
Qed.


Lemma positive_part_nonneg (x : Q) : 0 <= positive_part x.
Proof.
  unfold positive_part. destruct (Qgtb x 0) eqn:E.
  - apply Qgtb_gt in E. lra.
  - apply Qle_refl.
Qed.

Lemma recharge_rate_ok (e : Q) (sorted_levels : list WaterLevel) :
  exists rate,
    match sorted_levels with
    | [] => Ok 0
    | _ :: _ =>
        last_ <- py_last sorted_levels ;;
        first <- py_first sorted_levels ;;
        time_span_years <-
          py_div (inject_Z (days_between (timestamp last_) (timestamp first)))
                 (36525 # 100) ;;
        if Qgtb time_span_years 0 then
          q <- py_div e time_span_years ;;
          Ok (q * 1000)
        else Ok 0
    end = Ok rate.
Proof.
  destruct sorted_levels as [|x t]; [now exists 0|].
  cbn [py_last py_first bind].
  rewrite py_div_ok by (intros H; discriminate H).
  cbn [bind].
  destruct (Qgtb _ 0) eqn:E; [|now eexists].
  apply Qgtb_gt in E.
  rewrite py_div_ok by (intros H; rewrite H in E; now apply Qlt_irrefl in E).
  cbn [bind]. now eexists.
Qed.

(** ** Storage *)

Lemma storage_ratio_bounds (wc wd : Q) :
  0 < wd -> 0 <= wc ->
  0 <= wc * specific_yield / (wd * specific_yield) * 100 /\
  (wc <= wd -> wc * specific_yield / (wd * specific_yield) * 100 <= 100).
Proof.
  intros Hwd Hwc. unfold specific_yield.
  assert (Hm : 0 < wd * (15 # 100)) by lra.
  assert (E : wc * (15 # 100) / (wd * (15 # 100)) == wc / wd).
  { field. intros H. rewrite H in Hwd. now apply Qlt_irrefl in Hwd. }
  rewrite E. split.
  - assert (0 <= wc / wd).
    { apply Qle_shift_div_l; [exact Hwd | lra]. }
    lra.
  - intros Hle. assert (wc / wd <= 1).
    { apply Qle_shift_div_r; [exact Hwd | lra]. }
    lra.
Qed.

(** C3 (as stated) fails: a reading above ground level (negative depth) on a
    10 m well gives a storage percentage of 150. *)
Lemma storage_percentage_above_100 :
  exists wd r p,
    well_depth sample_station = Some wd /\ 0 < wd /\
    calculate_storage sample_station (-5 # 1) = Ok r /\
    storage_percentage r = Some p /\ p == 150 /\ ~ p <= 100.
Proof.
  exists 10. eexists. eexists.
  split; [reflexivity|]. split; [reflexivity|].
  split; [vm_compute; reflexivity|]. split; [reflexivity|].
  split; [reflexivity|]. intros H. vm_compute in H. now apply H.
Qed.

(** C3 (amended): with a defined, positive [well_depth] the storage
    percentage is never negative, and for every [current_depth >= 0] it lies
    in [0, 100]. *)
Theorem calculate_storage_percentage_bounds
        (st : DWLRStation) (current_depth wd : Q) :
  well_depth st = Some wd -> 0 < wd ->
  exists r p,
    calculate_storage st current_depth = Ok r /\
    storage_percentage r = Some p /\
    0 <= p /\ (0 <= current_depth -> p <= 100).
Proof.
  intros Hwd Hpos. unfold calculate_storage. rewrite Hwd.
  assert (Hnz : Qeq_bool wd 0 = false).
  { apply Qeq_bool_false. intros H. rewrite H in Hpos.
    now apply Qlt_irrefl in Hpos. }
  rewrite Hnz.
  assert (Hmax : 0 < wd * specific_yield) by (unfold specific_yield; lra).
  apply Qgtb_gt in Hmax as Hg. rewrite Hg.
  rewrite py_div_ok
    by (intros H; rewrite H in Hmax; now apply Qlt_irrefl in Hmax).
  cbn [bind]. eexists. eexists.
  split; [reflexivity|]. split; [reflexivity|].
  destruct (Qltb (wd - current_depth) 0) eqn:E.
  - apply Qltb_lt in E.
    destruct (storage_ratio_bounds 0 wd Hpos (Qle_refl 0)) as [L U].
    split; [exact L|]. intros _. apply U. lra.
  - apply Qltb_ge in E.
    destruct (storage_ratio_bounds (wd - current_depth) wd Hpos E) as [L U].
    split; [exact L|]. intros Hcd. apply U. lra.
Qed.

Lemma calculate_storage_percentage_bounds_witness :
  exists r p,
    calculate_storage sample_station (4 # 1) = Ok r /\
    storage_percentage r = Some p /\
    0 <= p /\ (0 <= 4 # 1 -> p <= 100).
Proof.
  apply (calculate_storage_percentage_bounds sample_station (4 # 1) 10).
  - reflexivity.
  - reflexivity.
Defined.

(** ** Alert status *)

(** C4: with a defined storage percentage the label comes from its
    thresholds alone: below 20 critical, from 20 to below 40 warning, above
    70 good, normal otherwise; it is always one of the four labels. *)
Theorem determine_alert_status_thresholds
        (sp : Q) (trend : string) (current_depth : Q) (well_depth : option Q) :
  (sp < 20 ->
   determine_alert_status (Some sp) trend current_depth well_depth
   = Ok "critical"%string) /\
  (20 <= sp -> sp < 40 ->
   determine_alert_status (Some sp) trend current_depth well_depth
   = Ok "warning"%string) /\
  (70 < sp ->
   determine_alert_status (Some sp) trend current_depth well_depth
   = Ok "good"%string) /\
  (40 <= sp -> sp <= 70 ->
   determine_alert_status (Some sp) trend current_depth well_depth
   = Ok "normal"%string) /\
  (exists label,
     determine_alert_status (Some sp) trend current_depth well_depth
     = Ok label /\
     In label ["critical"; "warning"; "good"; "normal"]%string).
Proof.
  unfold determine_alert_status.
  destruct (Qltb sp 20) eqn:E1;
    [apply Qltb_lt in E1 | apply Qltb_ge in E1];
    (destruct (Qltb sp 40) eqn:E2;
     [apply Qltb_lt in E2 | apply Qltb_ge in E2]);
    (destruct (Qgtb sp 70) eqn:E3;
     [apply Qgtb_gt in E3 | apply Qgtb_le in E3]);
    repeat split; intros; try reflexivity; try lra;
    eexists; (split; [reflexivity | simpl; tauto]).
Qed.

Lemma determine_alert_status_thresholds_witness :
  determine_alert_status (Some 25) "falling" 7 (Some 10) = Ok "warning"%string.
Proof.
  destruct (determine_alert_status_thresholds 25 "falling" 7 (Some 10))
    as [_ [H _]].
  apply H.
  - discriminate.
  - reflexivity.
Defined.

(** C8: the [trend] argument never changes the label. *)
Theorem determine_alert_status_ignores_trend
        (sp : option Q) (trend1 trend2 : string)
        (current_depth : Q) (well_depth : option Q) :
  determine_alert_status sp trend1 current_depth well_depth =
  determine_alert_status sp trend2 current_depth well_depth.
Proof.
  destruct sp as [p|]; reflexivity.
Qed.

(** ** Trend: the sums *)

Lemma fold_left_Zadd (l : list Z) (a : Z) :
  fold_left Z.add l a = (a + Zsum l)%Z.
Proof.
  revert a. induction l as [|x l IH]; intros a; simpl.
  - lia.
  - rewrite IH. lia.
Qed.

Lemma py_sum_int_Zsum (l : list Z) : py_sum_int l = Zsum l.
Proof.
  unfold py_sum_int. now rewrite fold_left_Zadd.
Qed.

Lemma combine_fst_snd {A B : Type} (l : list (A * B)) :
  combine (map fst l) (map snd l) = l.
Proof.
  induction l as [|[a b] l IH]; simpl; [reflexivity | now rewrite IH].
Qed.

Lemma Zsum_times (pts : list (Z * Q)) :
  inject_Z (Zsum (map fst pts)) == pt_sum_t pts.
Proof.
  unfold pt_sum_t. induction pts as [|p pts IH]; simpl.
  - reflexivity.
  - rewrite inject_Z_plus, IH. reflexivity.
Qed.

Lemma Zsum_times_sq (pts : list (Z * Q)) :
  inject_Z (Zsum (map (fun t => t * t)%Z (map fst pts))) == pt_sum_t2 pts.
Proof.
  unfold pt_sum_t2. induction pts as [|p pts IH]; simpl.
  - reflexivity.
  - rewrite inject_Z_plus, inject_Z_mult, IH. reflexivity.
Qed.

Lemma pt_count_cons (p : Z * Q) (pts : list (Z * Q)) :
  pt_count (p :: pts) == 1 + pt_count pts.
Proof.
  unfold pt_count. cbn [List.length]. rewrite Nat2Z.inj_succ.
  unfold Z.succ. rewrite inject_Z_plus. ring.
Qed.

Lemma pt_count_pos (pts : list (Z * Q)) : pts <> [] -> 0 < pt_count pts.
Proof.
  intros H. destruct pts as [|p pts]; [contradiction|].
  unfold pt_count. replace 0 with (inject_Z 0) by reflexivity.
  rewrite <- Zlt_Qlt. cbn [List.length]. lia.
Qed.

Lemma slope_denominator_points (pts : list (Z * Q)) :
  inject_Z (slope_denominator (map fst pts)) ==
  pt_count pts * pt_sum_t2 pts - pt_sum_t pts * pt_sum_t pts.
Proof.
  unfold slope_denominator. rewrite !py_sum_int_Zsum, length_map.
  unfold Z.sub. rewrite inject_Z_plus, inject_Z_opp, !inject_Z_mult.
  rewrite Zsum_times, Zsum_times_sq. unfold pt_count. ring.
Qed.

(** ** Trend: least squares *)

Lemma sse_shift (a b a' b' : Q) (pts : list (Z * Q)) :
  sse a' b' pts ==
  sse a b pts + sum_sq_shift (a - a') (b - b') pts
  + 2 * ((a - a') * sum_residual a b pts + (b - b') * sum_t_residual a b pts).
Proof.
  unfold sse, sum_sq_shift, sum_residual, sum_t_residual.
  induction pts as [|p pts IH]; cbn [map Qsum].
  - ring.
  - rewrite IH. unfold residual. ring.
Qed.

Lemma sum_sq_shift_nonneg (da db : Q) (pts : list (Z * Q)) :
  0 <= sum_sq_shift da db pts.
Proof.
  unfold sum_sq_shift. apply Qsum_nonneg. intros x Hx.
  apply in_map_iff in Hx. destruct Hx as [p [<- _]].
  set (u := da + db * inject_Z (fst p)). nra.
Qed.

Lemma sum_residual_sums (a b : Q) (pts : list (Z * Q)) :
  sum_residual a b pts ==
  pt_sum_d pts - a * pt_count pts - b * pt_sum_t pts.
Proof.
  induction pts as [|p pts IH].
  - unfold sum_residual, pt_sum_d, pt_sum_t, pt_count. simpl. ring.
  - rewrite pt_count_cons.
    unfold sum_residual, pt_sum_d, pt_sum_t in *. cbn [map Qsum].
    rewrite IH. unfold residual. ring.
Qed.

Lemma sum_t_residual_sums (a b : Q) (pts : list (Z * Q)) :
  sum_t_residual a b pts ==
  pt_sum_td pts - a * pt_sum_t pts - b * pt_sum_t2 pts.
Proof.
  unfold sum_t_residual, pt_sum_td, pt_sum_t, pt_sum_t2.
  induction pts as [|p pts IH]; cbn [map Qsum].
  - ring.
  - rewrite IH. unfold residual. ring.
Qed.

(** A line whose residuals are orthogonal to the constant and to the
    regressor is a least-squares line. *)
Lemma normal_equations_ols (a b : Q) (pts : list (Z * Q)) :
  sum_residual a b pts == 0 -> sum_t_residual a b pts == 0 ->
  forall a' b', sse a b pts <= sse a' b' pts.
Proof.
  intros H1 H2 a' b'. rewrite (sse_shift a b a' b'), H1, H2.
  pose proof (sum_sq_shift_nonneg (a - a') (b - b') pts). lra.
Qed.

(** ** Trend: the guarded denominator *)

Lemma Zsum_all_equal (c : Z) (l : list Z) :
  (forall t, In t l -> t = c) ->
  Zsum l = (Z.of_nat (List.length l) * c)%Z /\
  Zsum (map (fun t => t * t)%Z l) = (Z.of_nat (List.length l) * (c * c))%Z.
Proof.
  induction l as [|x l IH]; intros H.
  - simpl. lia.
  - cbn [map Zsum List.length]. rewrite Nat2Z.inj_succ.
    destruct IH as [I1 I2]; [intros; apply H; now right|].
    rewrite I1, I2, (H x) by now left. lia.
Qed.

Lemma slope_denominator_same_day (times : list Z) :
  (forall x y, In x times -> In y times -> x = y) ->
  slope_denominator times = 0%Z.
Proof.
  intros H. unfold slope_denominator. rewrite !py_sum_int_Zsum.
  destruct times as [|c l]; [reflexivity|].
  destruct (Zsum_all_equal c (c :: l)) as [I1 I2].
  { intros t Ht. apply H; [exact Ht | now left]. }
  rewrite I1, I2. lia.
Qed.

(** ** Trend: the slope *)

Lemma trend_slope_eq (pts : list (Z * Q)) :
  trend_slope (map fst pts) (map snd pts) =
  if negb (slope_denominator (map fst pts) =? 0)%Z then
    py_div (inject_Z (Z.of_nat (List.length (map fst pts)))
            * py_sum (map (fun p => inject_Z (fst p) * snd p) pts)
            - inject_Z (py_sum_int (map fst pts)) * py_sum (map snd pts))
           (inject_Z (slope_denominator (map fst pts)))
  else Ok 0.
Proof.
  unfold trend_slope, slope_denominator. now rewrite combine_fst_snd.
Qed.

Lemma trend_slope_total (times : list Z) (depths : list Q) :
  exists s, trend_slope times depths = Ok s.
Proof.
  unfold trend_slope.
  destruct (_ =? 0)%Z eqn:E; cbn [negb]; [now eexists|].
  apply Z.eqb_neq in E. rewrite py_div_ok; [now eexists|].
  intros H. apply E. now apply (inject_Z_injective _ 0%Z).
Qed.

(** ** Trend: [analyze_trend] *)

Lemma combine_map_fst {A B C : Type} (f : A -> B) (g : A -> C) (l : list A) :
  map fst (combine (map f l) (map g l)) = map f l.
Proof.
  induction l as [|x l IH]; simpl; [reflexivity | now rewrite IH].
Qed.

Lemma combine_map_snd {A B C : Type} (f : A -> B) (g : A -> C) (l : list A) :
  map snd (combine (map f l) (map g l)) = map g l.
Proof.
  induction l as [|x l IH]; simpl; [reflexivity | now rewrite IH].
Qed.

Lemma sorted_by_timestamp_nonempty (wls : list WaterLevel) :
  (2 <= List.length wls)%nat ->
  exists x t, sorted_by_timestamp wls = x :: t.
Proof.
  intros H. pose proof (sorted_by_timestamp_length wls) as L.
  destruct (sorted_by_timestamp wls) as [|x t]; [simpl in L; lia|].
  now exists x, t.
Qed.

Lemma analyze_trend_points (wls : list WaterLevel) :
  (2 <= List.length wls)%nat ->
  trend_points wls <> [] /\
  analyze_trend wls =
  (slope <- trend_slope (map fst (trend_points wls))
                        (map snd (trend_points wls)) ;;
   Ok (classify_trend slope)).
Proof.
  intros H. unfold analyze_trend, trend_points.
  destruct (List.length wls <? 2)%nat eqn:E; [apply Nat.ltb_lt in E; lia|].
  destruct (sorted_by_timestamp_nonempty wls H) as [x [t S]]. rewrite S.
  cbn [py_first bind]. unfold day_offsets.
  rewrite combine_map_fst, combine_map_snd.
  split; [discriminate | reflexivity].
Qed.

Lemma analyze_trend_total (wls : list WaterLevel) :
  exists slope, analyze_trend wls = Ok (classify_trend slope) \/
                (analyze_trend wls = Ok {| trend := "stable"; trend_magnitude := 0 |}
                 /\ (List.length wls < 2)%nat).
Proof.
  destruct (le_lt_dec 2 (List.length wls)) as [H|H].
  - destruct (analyze_trend_points wls H) as [_ ->].
    destruct (trend_slope_total (map fst (trend_points wls))
                                (map snd (trend_points wls))) as [s ->].
    exists s. now left.
  - exists 0. right. split; [|exact H].
    unfold analyze_trend. apply Nat.ltb_lt in H. now rewrite H.
Qed.

(** C9: [analyze_trend] always returns: the only division is guarded by the
    test on the denominator.  From two readings on, when all day offsets
    coincide the denominator is 0, the slope is taken as 0, and the result is
    stable with magnitude 0. *)
Theorem analyze_trend_division_guarded (wls : list WaterLevel) :
  (exists r, analyze_trend wls = Ok r) /\
  ((2 <= List.length wls)%nat ->
   (forall x y, In x (map fst (trend_points wls)) ->
                In y (map fst (trend_points wls)) -> x = y) ->
   slope_denominator (map fst (trend_points wls)) = 0%Z /\
   trend_slope (map fst (trend_points wls)) (map snd (trend_points wls))
   = Ok 0 /\
   exists r, analyze_trend wls = Ok r /\
             trend r = "stable"%string /\ trend_magnitude r == 0).
Proof.
  split.
  - destruct (analyze_trend_total wls) as [s [E | [E _]]];
      rewrite E; now eexists.
  - intros H Hsame.
    pose proof (slope_denominator_same_day _ Hsame) as D.
    destruct (analyze_trend_points wls H) as [_ ->].
    rewrite trend_slope_eq, D. cbn [Z.eqb negb bind].
    split; [reflexivity|]. split; [reflexivity|].
    eexists. split; [reflexivity|]. split; reflexivity.
Qed.

Lemma analyze_trend_division_guarded_witness :
  exists r, analyze_trend same_day_readings = Ok r /\
            trend r = "stable"%string /\ trend_magnitude r == 0.
Proof.
  destruct (analyze_trend_division_guarded same_day_readings) as [_ H].
  destruct H as [_ [_ H]].
  - simpl. lia.
  - intros x y Hx Hy. vm_compute in Hx, Hy.
    destruct Hx as [<- | [<- | []]]; destruct Hy as [<- | [<- | []]];
      reflexivity.
  - exact H.
Defined.

(** ** Short series and the other guards *)

(** C5 (as stated) fails in its last part: with two or more readings at hand
    [calculate_storage] still answers with nulls for a station without a well
    depth, an edge case besides the short series. *)
Lemma storage_nulls_with_readings :
  (2 <= List.length sample_readings)%nat /\
  calculate_storage bare_station 19 = Ok no_storage /\
  ~ nulls_only_below_two_readings.
Proof.
  split; [simpl; lia|]. split; [reflexivity|].
  intros H.
  destruct (H sample_readings bare_station 19) as [_ [s [E N]]];
    [simpl; lia|].
  cbv in E. injection E as <-. now apply N.
Qed.

(** C5 (amended): below two readings [calculate_recharge] returns null for
    both fields and [analyze_trend] returns the default stable / 0 result,
    and from two readings on [calculate_recharge] returns no null.  Besides
    that, [calculate_storage] returns nulls exactly when the well depth is
    missing or zero. *)
Theorem short_series_defaults :
  (forall wls st,
     (List.length wls < 2)%nat ->
     calculate_recharge wls st
     = Ok {| estimated_recharge := None; recharge_rate := None |}) /\
  (forall wls,
     (List.length wls < 2)%nat ->
     analyze_trend wls = Ok {| trend := "stable"; trend_magnitude := 0 |}) /\
  (forall wls st,
     (2 <= List.length wls)%nat ->
     exists r e q,
       calculate_recharge wls st = Ok r /\
       estimated_recharge r = Some e /\ recharge_rate r = Some q) /\
  (forall st cd,
     truthy (well_depth st) = false ->
     calculate_storage st cd = Ok no_storage) /\
  (forall st cd,
     truthy (well_depth st) = true ->
     exists s a b c,
       calculate_storage st cd = Ok s /\
       current_storage s = Some a /\ available_storage s = Some b /\
       storage_percentage s = Some c).
Proof.
  repeat split.
  - intros wls st H. unfold calculate_recharge.
    apply Nat.ltb_lt in H. now rewrite H.
  - intros wls H. unfold analyze_trend.
    apply Nat.ltb_lt in H. now rewrite H.
  - intros wls st H. unfold calculate_recharge.
    destruct (List.length wls <? 2)%nat eqn:E; [apply Nat.ltb_lt in E; lia|].
    destruct (rise_totals (sorted_by_timestamp wls)) as [total periods].
    match goal with
    | |- context [bind ?m _] =>
        destruct (recharge_rate_ok
                    (if (0 <? periods)%nat then total * specific_yield else 0)
                    (sorted_by_timestamp wls)) as [rate Hr]
    end.
    rewrite Hr. cbn [bind]. now repeat eexists.
  - intros st cd H. unfold calculate_storage, truthy in *.
    destruct (well_depth st) as [wd|]; [|reflexivity].
    apply negb_false_iff in H. now rewrite H.
  - intros st cd H. unfold calculate_storage, truthy in *.
    destruct (well_depth st) as [wd|]; [|discriminate].
    apply negb_true_iff in H. rewrite H.
    destruct (Qgtb (wd * specific_yield) 0) eqn:G.
    + apply Qgtb_gt in G. rewrite py_div_ok.
      * cbn [bind]. now repeat eexists.
      * intros Z0. rewrite Z0 in G. now apply Qlt_irrefl in G.
    + cbn [bind]. now repeat eexists.
Qed.

Lemma short_series_defaults_witness :
  calculate_recharge [reading 0 20] sample_station
  = Ok {| estimated_recharge := None; recharge_rate := None |} /\
  analyze_trend [reading 0 20]
  = Ok {| trend := "stable"; trend_magnitude := 0 |} /\
  calculate_storage bare_station 19 = Ok no_storage.
Proof.
  destruct short_series_defaults as [H1 [H2 [_ [H4 _]]]].
  split; [|split].
  - apply H1. simpl. lia.
  - apply H2. simpl. lia.
  - apply H4. reflexivity.
Defined.

(** ** The water-level table *)

Lemma row_matches_key (code : string) (ts : Z) (wl : WaterLevel) :
  row_matches code ts wl = true <-> row_key wl = (code, ts).
Proof.
  unfold row_matches, row_key.
  rewrite andb_true_iff, String.eqb_eq, Z.eqb_eq.
  split; [intros [-> ->]; reflexivity | intros H; now inversion H].
Qed.

Lemma set_defaults_key (code : string) (ts : Z) (d : Q) (wle : option Q)
      (src : string) (wl : WaterLevel) :
  row_key (set_defaults code ts d wle src wl) = row_key wl.
Proof.
  unfold set_defaults. now destruct (row_matches code ts wl).
Qed.

Lemma set_defaults_keys (code : string) (ts : Z) (d : Q) (wle : option Q)
      (src : string) (l : list WaterLevel) :
  map row_key (map (set_defaults code ts d wle src) l) = map row_key l.
Proof.
  rewrite map_map. apply map_ext. intros wl. apply set_defaults_key.
Qed.

Lemma filter_matches_in (code : string) (ts : Z) (l : list WaterLevel) :
  In (code, ts) (map row_key l) <-> filter (row_matches code ts) l <> [].
Proof.
  split.
  - intros H E. apply in_map_iff in H. destruct H as [wl [K I]].
    assert (In wl (filter (row_matches code ts) l)) as F
        by (apply filter_In; split; [exact I | now apply row_matches_key]).
    rewrite E in F. contradiction.
  - intros H. destruct (filter (row_matches code ts) l) as [|wl t] eqn:E;
      [contradiction|].
    assert (In wl (filter (row_matches code ts) l)) as F
        by (rewrite E; now left).
    apply filter_In in F. destruct F as [I M].
    apply in_map_iff. exists wl. split; [now apply row_matches_key | exact I].
Qed.

Lemma unique_rows_one_match (code : string) (ts : Z) (l : list WaterLevel) :
  unique_rows l ->
  filter (row_matches code ts) l = [] \/
  exists wl, filter (row_matches code ts) l = [wl].
Proof.
  unfold unique_rows. induction l as [|x l IH]; intros U; [now left|].
  cbn [map] in U. inversion U as [|k ks Hnot Hrest]; subst.
  cbn [filter]. destruct (row_matches code ts x) eqn:M.
  - right. exists x. f_equal.
    destruct (filter (row_matches code ts) l) as [|y t] eqn:F;
      [reflexivity|].
    exfalso. apply Hnot. apply row_matches_key in M. rewrite M.
    apply filter_matches_in. rewrite F. discriminate.
  - now apply IH.
Qed.

(** What [update_or_create] does on a table that satisfies the constraint. *)
Lemma update_or_create_unique (code : string) (ts : Z) (d : Q)
      (wle : option Q) (src : string) (l : list WaterLevel) :
  unique_rows l ->
  exists created l',
    update_or_create code ts d wle src l = Ok (created, l') /\
    unique_rows l' /\
    ((created = true /\ ~ In (code, ts) (map row_key l) /\
      l' = l ++ [mkWaterLevel code ts d wle src]) \/
     (created = false /\ In (code, ts) (map row_key l) /\
      l' = map (set_defaults code ts d wle src) l)).
Proof.
  intros U. unfold update_or_create.
  destruct (unique_rows_one_match code ts l U) as [E | [wl E]]; rewrite E.
  - assert (~ In (code, ts) (map row_key l)) as N
        by (rewrite filter_matches_in; intros H; now apply H).
    exists true. eexists. split; [reflexivity|]. split.
    + unfold unique_rows in *. rewrite map_app. cbn [map row_key station timestamp].
      apply NoDup_app; [exact U | repeat constructor; intros [] |].
      intros k Hk [<- | []]. now apply N.
    + left. now repeat split.
  - assert (In (code, ts) (map row_key l)) as I
        by (apply filter_matches_in; rewrite E; discriminate).
    exists false. eexists. split; [reflexivity|]. split.
    + unfold unique_rows in *. now rewrite set_defaults_keys.
    + right. now repeat split.
Qed.

Lemma sync_record_unique
      (parse_timestamp : string -> option Z)
      (parse_float : string -> option Q) (now : nat -> Z)
      (st : DWLRStation) (data : pydict) (w w' : world) (count count' : nat) :
  unique_rows (rows w) ->
  sync_record parse_timestamp parse_float now st data w count
  = Ok (w', count') ->
  unique_rows (rows w') /\
  exists ts d wle,
    (~ In (station_code st, ts) (map row_key (rows w)) /\
     rows w' = rows w ++ [mkWaterLevel (station_code st) ts d wle "CGWB_API"] /\
     count' = S count) \/
    (In (station_code st, ts) (map row_key (rows w)) /\
     rows w' = map (set_defaults (station_code st) ts d wle "CGWB_API") (rows w) /\
     count' = count).
Proof.
  intros U. unfold sync_record.
  set (timestamp_str := py_or _ _).
  set (depth_value := py_or _ (PyInt 0)).
  assert (forall tw : Z * world,
             match timestamp_str with
             | PyStr s =>
                 match parse_timestamp s with
                 | Some t => Ok (t, w)
                 | None => Raise ValueError
                 end
             | _ => Ok (timezone_now now w)
             end = Ok tw -> rows (snd tw) = rows w) as Hrows.
  { intros tw. destruct timestamp_str as [|s|z|q];
      try (intros H; injection H as <-; reflexivity).
    destruct (parse_timestamp s); [|discriminate].
    intros H; injection H as <-; reflexivity. }
  destruct (match timestamp_str with PyStr _ => _ | _ => _ end)
    as [[ts w1]|e]; [|discriminate].
  specialize (Hrows (ts, w1) eq_refl). cbn [snd] in Hrows.
  cbn [bind].
  destruct (py_float parse_float depth_value) as [d|e]; [|discriminate].
  cbn [bind]. set (wle := match elevation st with Some _ => _ | None => _ end).
  rewrite Hrows.
  destruct (update_or_create_unique (station_code st) ts d wle "CGWB_API"
                                    (rows w) U)
    as [created [l' [E [U' B]]]].
  rewrite E. cbn [bind]. intros H. injection H as <- <-. cbn [rows].
  split; [exact U'|]. exists ts, d, wle.
  destruct B as [[-> [N ->]] | [-> [I ->]]]; [left | right]; now repeat split.
Qed.

Lemma sync_loop_unique
      (parse_timestamp : string -> option Z)
      (parse_float : string -> option Q) (now : nat -> Z)
      (st : DWLRStation) (batch : list pydict) :
  forall (w w' : world) (count count' : nat),
    unique_rows (rows w) ->
    sync_loop parse_timestamp parse_float now st batch w count
    = Ok (w', count') ->
    unique_rows (rows w').
Proof.
  induction batch as [|data rest IH]; intros w w' count count' U; cbn [sync_loop].
  - intros H. injection H as <- _. exact U.
  - destruct (sync_record parse_timestamp parse_float now st data w count)
      as [[w1 c1]|e] eqn:R; [|discriminate].
    cbn [bind fst snd]. apply IH.
    now destruct (sync_record_unique _ _ _ _ _ _ _ _ _ U R).
Qed.

(** * Further properties of the analysis service *)

(** ** Recharge: sign and annual rate *)



Lemma locally_sorted_head_least (rest : list WaterLevel) :
  forall first,
    LocallySorted timestamp_le (first :: rest) ->
    forall x, In x (first :: rest) -> (timestamp first <= timestamp x)%Z.
Proof.
  induction rest as [|y t IH]; intros first S x Hx.
  - destruct Hx as [<- | []]. lia.
  - inversion S as [| |a b l S' Hab]; subst. unfold timestamp_le in Hab.
    destruct Hx as [<- | Hx]; [lia|].
    specialize (IH y S' x Hx). lia.
Qed.



Lemma rise_totals_nonneg (l : list WaterLevel) : 0 <= fst (rise_totals l).
Proof.
  unfold rise_totals. destruct l as [|x t]; [apply Qle_refl|].
  rewrite rise_loop_total. cbn [fst].
  assert (0 <= Qsum (map (fun p => positive_part (depth_decrease p))
                         (consecutive_pairs (x :: t)))).
  { apply Qsum_nonneg. intros q Hq. apply in_map_iff in Hq.
    destruct Hq as [p [<- _]]. apply positive_part_nonneg. }
  lra.
Qed.

(** The result of [calculate_recharge] from two readings on, spelled out. *)
Lemma calculate_recharge_value (wls : list WaterLevel) (st : DWLRStation) :
  (2 <= List.length wls)%nat ->
  let totals := rise_totals (sorted_by_timestamp wls) in
  let e := if (0 <? snd totals)%nat then fst totals * specific_yield else 0 in
  let years := inject_Z (series_span_days wls) / (36525 # 100) in
  calculate_recharge wls st =
  Ok {| estimated_recharge := Some e;
        recharge_rate :=
          Some (if Qgtb years 0 then e / years * 1000 else 0) |}.
Proof.
  intros H totals e years. unfold calculate_recharge.
  destruct (List.length wls <? 2)%nat eqn:E; [apply Nat.ltb_lt in E; lia|].
  subst e years totals. unfold series_span_days.
  destruct (rise_totals (sorted_by_timestamp wls)) as [total periods].
  cbn [fst snd].
  destruct (sorted_by_timestamp_nonempty wls H) as [x [t S]]. rewrite S.
  cbn [py_last py_first bind].
  rewrite py_div_ok by (intros Z0; discriminate Z0). cbn [bind].
  destruct (Qgtb _ 0) eqn:G; [|reflexivity].
  apply Qgtb_gt in G.
  rewrite py_div_ok by (intros Z0; rewrite Z0 in G; now apply Qlt_irrefl in G).
  reflexivity.
Qed.





(** X1: from two readings on, neither the recharge estimate nor the annual
    recharge rate is negative. *)
Theorem calculate_recharge_nonneg (wls : list WaterLevel) (st : DWLRStation) :
  (2 <= List.length wls)%nat ->
  exists r e q,
    calculate_recharge wls st = Ok r /\
    estimated_recharge r = Some e /\ recharge_rate r = Some q /\
    0 <= e /\ 0 <= q.
Proof.
  intros H. rewrite (calculate_recharge_value wls st H).
  eexists. eexists. eexists.
  split; [reflexivity|]. split; [reflexivity|]. split; [reflexivity|].
  pose proof (rise_totals_nonneg (sorted_by_timestamp wls)) as T.
  set (totals := rise_totals (sorted_by_timestamp wls)) in *.
  set (e := if (0 <? snd totals)%nat then fst totals * specific_yield else 0).
  assert (He : 0 <= e).
  { unfold e, specific_yield. destruct (0 <? snd totals)%nat; lra. }
  split; [exact He|].
  destruct (Qgtb _ 0) eqn:G; [|apply Qle_refl].
  apply Qgtb_gt in G.
  set (years := inject_Z (series_span_days wls) / (36525 # 100)) in *.
  assert (0 <= e / years) by (apply Qle_shift_div_l; [exact G | lra]).
  lra.
Qed.

Lemma calculate_recharge_nonneg_witness :
  exists r e q,
    calculate_recharge sample_readings sample_station = Ok r /\
    estimated_recharge r = Some e /\ recharge_rate r = Some q /\
    0 <= e /\ 0 <= q.
Proof.
  apply (calculate_recharge_nonneg sample_readings sample_station).
  simpl. lia.
Defined.



(** ** Storage: monotonicity *)

(** The result of [calculate_storage] for a well depth that is neither
    missing nor zero, spelled out. *)
Lemma calculate_storage_value (st : DWLRStation) (current_depth wd : Q) :
  well_depth st = Some wd -> ~ wd == 0 ->
  let column :=
    if Qltb (wd - current_depth) 0 then 0 else wd - current_depth in
  calculate_storage st current_depth =
  Ok {| current_storage := Some (column * specific_yield);
        available_storage :=
          Some (wd * specific_yield - column * specific_yield);
        storage_percentage :=
          Some (if Qgtb (wd * specific_yield) 0
                then column * specific_yield / (wd * specific_yield) * 100
                else 0) |}.
Proof.
  intros Hwd Hnz column. unfold calculate_storage. rewrite Hwd.
  apply Qeq_bool_false in Hnz. rewrite Hnz. fold column.
  destruct (Qgtb (wd * specific_yield) 0) eqn:G; [|reflexivity].
  apply Qgtb_gt in G.
  rewrite py_div_ok by (intros Z0; rewrite Z0 in G; now apply Qlt_irrefl in G).
  reflexivity.
Qed.

Lemma storage_ratio (wc wd : Q) :
  0 < wd ->
  wc * specific_yield / (wd * specific_yield) * 100 == wc / wd * 100.
Proof.
  intros H. unfold specific_yield. field.
  intros Z0. rewrite Z0 in H. now apply Qlt_irrefl in H.
Qed.

(** X5: for a positive well depth the storage percentage never increases
    when the water level is deeper. *)
Theorem calculate_storage_monotone
        (st : DWLRStation) (depth1 depth2 wd : Q) :
  well_depth st = Some wd -> 0 < wd -> depth1 <= depth2 ->
  exists r1 r2 p1 p2,
    calculate_storage st depth1 = Ok r1 /\
    calculate_storage st depth2 = Ok r2 /\
    storage_percentage r1 = Some p1 /\ storage_percentage r2 = Some p2 /\
    p2 <= p1.
Proof.
  intros Hwd Hpos Hle.
  assert (Hnz : ~ wd == 0)
    by (intros Z0; rewrite Z0 in Hpos; now apply Qlt_irrefl in Hpos).
  rewrite (calculate_storage_value st depth1 wd Hwd Hnz).
  rewrite (calculate_storage_value st depth2 wd Hwd Hnz).
  do 4 eexists.
  split; [reflexivity|]. split; [reflexivity|].
  split; [reflexivity|]. split; [reflexivity|].
  assert (G : Qgtb (wd * specific_yield) 0 = true)
    by (apply Qgtb_gt; unfold specific_yield; lra).
  rewrite G, !storage_ratio by exact Hpos.
  set (c1 := if Qltb (wd - depth1) 0 then 0 else wd - depth1).
  set (c2 := if Qltb (wd - depth2) 0 then 0 else wd - depth2).
  assert (c2 <= c1) as Hc.
  { unfold c1, c2.
    destruct (Qltb (wd - depth1) 0) eqn:E1;
      [apply Qltb_lt in E1 | apply Qltb_ge in E1];
      (destruct (Qltb (wd - depth2) 0) eqn:E2;
       [apply Qltb_lt in E2 | apply Qltb_ge in E2]); lra. }
  assert (c2 / wd <= c1 / wd) as Hd.
  { unfold Qdiv. apply Qmult_le_compat_r; [exact Hc|].
    apply Qlt_le_weak, Qinv_lt_0_compat, Hpos. }
  lra.
Qed.

Lemma calculate_storage_monotone_witness :
  exists r1 r2 p1 p2,
    calculate_storage sample_station 4 = Ok r1 /\
    calculate_storage sample_station 6 = Ok r2 /\
    storage_percentage r1 = Some p1 /\ storage_percentage r2 = Some p2 /\
    p2 <= p1.
Proof.
  apply (calculate_storage_monotone sample_station 4 6 10).
  - reflexivity.
  - reflexivity.
  - discriminate.
Defined.

(** ** Trend: the labels *)

Lemma nonzero_of_pos (x : Q) : 0 < x -> ~ x == 0.
Proof.
  intros H Z0. rewrite Z0 in H. now apply Qlt_irrefl in H.
Qed.

Lemma classify_trend_cases (s : Q) :
  let m := Qabs (s * (36525 # 100)) in
  (trend (classify_trend s) = "stable"%string /\ m < 1 # 10) \/
  (trend (classify_trend s) = "rising"%string /\ 1 # 10 <= m /\ s < 0) \/
  (trend (classify_trend s) = "falling"%string /\ 1 # 10 <= m /\ 0 <= s).
Proof.
  intros m. unfold classify_trend. cbn [trend]. fold m.
  destruct (Qltb m (1 # 10)) eqn:E1;
    [apply Qltb_lt in E1; now left | apply Qltb_ge in E1].
  destruct (Qltb s 0) eqn:E2;
    [apply Qltb_lt in E2 | apply Qltb_ge in E2]; right; [left | right];
    now repeat split.
Qed.

(** ** Trend: the least-squares slope is unique *)

Lemma sum_sq_shift_intercept (da : Q) (pts : list (Z * Q)) :
  sum_sq_shift da 0 pts == pt_count pts * (da * da).
Proof.
  induction pts as [|p pts IH].
  - unfold sum_sq_shift, pt_count. simpl. ring.
  - rewrite pt_count_cons. unfold sum_sq_shift in *. cbn [map Qsum].
    rewrite IH. ring.
Qed.

Lemma sum_sq_shift_slope (db : Q) (pts : list (Z * Q)) :
  sum_sq_shift 0 db pts == db * db * pt_sum_t2 pts.
Proof.
  unfold sum_sq_shift, pt_sum_t2.
  induction pts as [|p pts IH]; cbn [map Qsum].
  - ring.
  - rewrite IH. ring.
Qed.

Lemma pt_sum_t2_nonneg (pts : list (Z * Q)) : 0 <= pt_sum_t2 pts.
Proof.
  unfold pt_sum_t2. apply Qsum_nonneg. intros x Hx.
  apply in_map_iff in Hx. destruct Hx as [p [<- _]].
  set (t := inject_Z (fst p)). nra.
Qed.

Lemma sse_move (a b da db : Q) (pts : list (Z * Q)) :
  sse (a - da) (b - db) pts ==
  sse a b pts + sum_sq_shift da db pts
  + 2 * (da * sum_residual a b pts + db * sum_t_residual a b pts).
Proof.
  unfold sse, sum_sq_shift, sum_residual, sum_t_residual.
  induction pts as [|p pts IH]; cbn [map Qsum].
  - ring.
  - rewrite IH. unfold residual. ring.
Qed.

Lemma scaled_square_zero (n x : Q) : 0 < n -> n * (x * x) <= 0 -> x == 0.
Proof.
  intros Hn H. destruct (Qlt_le_dec 0 (x * x)) as [P | P].
  - pose proof (Qmult_lt_0_compat n (x * x) Hn P). lra.
  - nra.
Qed.

(** A least-squares line satisfies the normal equations. *)
Lemma ols_normal_equations (a b : Q) (pts : list (Z * Q)) :
  pts <> [] ->
  (forall a' b', sse a b pts <= sse a' b' pts) ->
  sum_residual a b pts == 0 /\ sum_t_residual a b pts == 0.
Proof.
  intros Hne Hmin.
  pose proof (pt_count_pos pts Hne) as Hn.
  pose proof (pt_sum_t2_nonneg pts) as Ht2.
  set (R1 := sum_residual a b pts). set (R2 := sum_t_residual a b pts).
  split.
  - set (x := R1 / pt_count pts).
    assert (Hx : R1 == x * pt_count pts)
      by (unfold x; field; now apply nonzero_of_pos).
    pose proof (Hmin (a - - x) (b - 0)) as M.
    rewrite (sse_move a b (- x) 0), sum_sq_shift_intercept in M.
    fold R1 R2 in M. rewrite Hx in M.
    assert (x == 0) as X0
        by (apply (scaled_square_zero (pt_count pts)); [exact Hn | lra]).
    rewrite Hx, X0. ring.
  - set (y := R2 / (pt_sum_t2 pts + 1)).
    assert (Hy : R2 == y * (pt_sum_t2 pts + 1))
      by (unfold y; field; apply nonzero_of_pos; lra).
    pose proof (Hmin (a - 0) (b - - y)) as M.
    rewrite (sse_move a b 0 (- y)), sum_sq_shift_slope in M.
    fold R1 R2 in M. rewrite Hy in M.
    assert (y == 0) as Y0
        by (apply (scaled_square_zero (pt_sum_t2 pts + 2)); lra).
    rewrite Hy, Y0. ring.
Qed.

Lemma ols_slope_unique (pts : list (Z * Q)) (b : Q) :
  slope_denominator (map fst pts) <> 0%Z ->
  is_ols_slope b pts ->
  b == (pt_count pts * pt_sum_td pts - pt_sum_t pts * pt_sum_d pts)
       / (pt_count pts * pt_sum_t2 pts - pt_sum_t pts * pt_sum_t pts).
Proof.
  intros D [a Hmin].
  assert (Hne : pts <> []) by (intros ->; now apply D).
  destruct (ols_normal_equations a b pts Hne Hmin) as [N1 N2].
  rewrite sum_residual_sums in N1. rewrite sum_t_residual_sums in N2.
  assert (Hd : ~ pt_count pts * pt_sum_t2 pts - pt_sum_t pts * pt_sum_t pts
                 == 0).
  { rewrite <- slope_denominator_points. intros Z0. apply D.
    now apply (inject_Z_injective _ 0%Z). }
  set (n := pt_count pts) in *. set (st := pt_sum_t pts) in *.
  set (sd := pt_sum_d pts) in *. set (std := pt_sum_td pts) in *.
  set (st2 := pt_sum_t2 pts) in *.
  set (num := n * std - st * sd). set (den := n * st2 - st * st) in *.
  assert (E0 : num - b * den
               == n * (std - a * st - b * st2) - st * (sd - a * n - b * st))
    by (unfold num, den; ring).
  rewrite N1, N2 in E0.
  assert (E : num == b * den).
  { setoid_replace num with (num - b * den + b * den) by ring.
    rewrite E0. ring. }
  rewrite E. field. exact Hd.
Qed.

(** ** The order of the input does not matter *)

Lemma NoDup_map_eq {A B : Type} (f : A -> B) (l : list A) :
  NoDup (map f l) ->
  forall a b, In a l -> In b l -> f a = f b -> a = b.
Proof.
  induction l as [|x l IH]; intros N a b Ha Hb E; [contradiction|].
  cbn [map] in N. inversion N as [|k ks Hnot Hrest]; subst.
  destruct Ha as [<- | Ha], Hb as [<- | Hb].
  - reflexivity.
  - exfalso. apply Hnot. rewrite E. now apply in_map.
  - exfalso. apply Hnot. rewrite <- E. now apply in_map.
  - now apply IH.
Qed.

Lemma locally_sorted_tail (x : WaterLevel) (l : list WaterLevel) :
  LocallySorted timestamp_le (x :: l) -> LocallySorted timestamp_le l.
Proof.
  intros S. inversion S; subst; [constructor | assumption].
Qed.

(** Two sorted lists with the same readings, no two of them at the same
    time, are the same list. *)
Lemma sorted_unique (l1 : list WaterLevel) :
  forall l2,
    LocallySorted timestamp_le l1 -> LocallySorted timestamp_le l2 ->
    Permutation l1 l2 -> NoDup (map timestamp l1) -> l1 = l2.
Proof.
  induction l1 as [|x t IH]; intros l2 S1 S2 P N.
  - apply Permutation_nil in P. now subst.
  - destruct l2 as [|y u];
      [apply Permutation_sym, Permutation_nil in P; discriminate|].
    assert (In y (x :: t)) as Hy
        by (eapply Permutation_in; [apply Permutation_sym, P | now left]).
    assert (In x (y :: u)) as Hx
        by (eapply Permutation_in; [apply P | now left]).
    pose proof (locally_sorted_head_least t x S1 y Hy) as L1.
    pose proof (locally_sorted_head_least u y S2 x Hx) as L2.
    assert (x = y) as <-.
    { apply (NoDup_map_eq timestamp (x :: t) N); [now left | exact Hy | lia]. }
    f_equal. apply IH.
    + now apply locally_sorted_tail in S1.
    + now apply locally_sorted_tail in S2.
    + now apply Permutation_cons_inv in P.
    + cbn [map] in N. now inversion N.
Qed.

Lemma sorted_by_timestamp_permuted (l1 l2 : list WaterLevel) :
  Permutation l1 l2 -> NoDup (map timestamp l1) ->
  sorted_by_timestamp l1 = sorted_by_timestamp l2.
Proof.
  intros P N. apply sorted_unique.
  - apply sorted_by_timestamp_sorted.
  - apply sorted_by_timestamp_sorted.
  - eapply perm_trans; [apply Permutation_sym, sorted_by_timestamp_perm|].
    eapply perm_trans; [apply P | apply sorted_by_timestamp_perm].
  - eapply Permutation_NoDup; [|exact N].
    apply Permutation_map, sorted_by_timestamp_perm.
Qed.

(** X11: when no two readings carry the same timestamp, as the table
    constraint guarantees for one station, the recharge and the trend do not
    depend on the order in which the readings are passed. *)
Theorem analysis_order_independent
        (l1 l2 : list WaterLevel) (st : DWLRStation) :
  Permutation l1 l2 -> NoDup (map timestamp l1) ->
  calculate_recharge l1 st = calculate_recharge l2 st /\
  analyze_trend l1 = analyze_trend l2.
Proof.
  intros P N.
  pose proof (sorted_by_timestamp_permuted l1 l2 P N) as S.
  pose proof (Permutation_length P) as L.
  unfold calculate_recharge, analyze_trend. rewrite S, L.
  split; reflexivity.
Qed.

Lemma analysis_order_independent_witness :
  calculate_recharge sample_readings sample_station
  = calculate_recharge [reading 0 20; reading 1 18; reading 2 19]
                       sample_station /\
  analyze_trend sample_readings
  = analyze_trend [reading 0 20; reading 1 18; reading 2 19].
Proof.
  apply (analysis_order_independent
           sample_readings [reading 0 20; reading 1 18; reading 2 19]
           sample_station).
  - apply (Permutation_cons_app [reading 0 20; reading 1 18] []).
    apply Permutation_refl.
  - cbv [sample_readings map reading timestamp].
    repeat constructor; cbn [In]; intros H;
      repeat (destruct H as [H | H]; [discriminate H|]); exact H.
Defined.

(** * Further properties of the water-level sync *)

Lemma update_or_create_cases (code : string) (ts : Z) (d : Q)
      (wle : option Q) (src : string) (l l' : list WaterLevel)
      (created : bool) :
  update_or_create code ts d wle src l = Ok (created, l') ->
  (created = true /\ ~ In (code, ts) (map row_key l) /\
   l' = l ++ [mkWaterLevel code ts d wle src]) \/
  (created = false /\ In (code, ts) (map row_key l) /\
   l' = map (set_defaults code ts d wle src) l).
Proof.
  unfold update_or_create.
  destruct (filter (row_matches code ts) l) as [|x [|y t]] eqn:F;
    intros H; [| |discriminate]; injection H as <- <-.
  - left. repeat split. rewrite filter_matches_in, F. intros N. now apply N.
  - right. repeat split. apply filter_matches_in. rewrite F. discriminate.
Qed.

(** What one pass of the loop does, whenever it does not raise. *)
Lemma sync_record_cases
      (parse_timestamp : string -> option Z)
      (parse_float : string -> option Q) (now : nat -> Z)
      (st : DWLRStation) (data : pydict) (w w' : world) (count count' : nat) :
  sync_record parse_timestamp parse_float now st data w count
  = Ok (w', count') ->
  exists ts d wle created,
    update_or_create (station_code st) ts d wle "CGWB_API" (rows w)
    = Ok (created, rows w') /\
    count' = (if created then S count else count) /\
    py_float parse_float (record_depth_value data) = Ok d /\
    wle = elevation_of st d /\
    match record_timestamp_value data with
    | PyStr s => parse_timestamp s = Some ts /\ ticks w' = ticks w
    | _ => ts = now (ticks w) /\ ticks w' = S (ticks w)
    end.
Proof.
  unfold sync_record. fold (record_timestamp_value data).
  fold (record_depth_value data).
  destruct (match record_timestamp_value data with
            | PyStr s => match parse_timestamp s with
                         | Some t => Ok (t, w)
                         | None => Raise ValueError
                         end
            | _ => Ok (timezone_now now w)
            end) as [[ts w1]|e] eqn:T; [|discriminate].
  cbn [bind].
  destruct (py_float parse_float (record_depth_value data)) as [d|e];
    [|discriminate].
  cbn [bind]. fold (elevation_of st d). set (wle := elevation_of st d).
  assert (Hw1 : rows w1 = rows w /\
                match record_timestamp_value data with
                | PyStr s => parse_timestamp s = Some ts /\ ticks w1 = ticks w
                | _ => ts = now (ticks w) /\ ticks w1 = S (ticks w)
                end).
  { destruct (record_timestamp_value data) as [|s|z|q];
      try (injection T as <- <-; now repeat split).
    destruct (parse_timestamp s) as [t|]; [|discriminate].
    injection T as <- <-. now repeat split. }
  destruct Hw1 as [Hrows Hts]. rewrite Hrows.
  destruct (update_or_create (station_code st) ts d wle "CGWB_API" (rows w))
    as [[created l]|e] eqn:U; [|discriminate].
  cbn [bind]. intros H. injection H as <- <-.
  exists ts, d, wle, created. cbn [rows ticks].
  split; [exact U|]. split; [reflexivity|]. split; [reflexivity|].
  split; [reflexivity | exact Hts].
Qed.

Lemma sync_loop_growth
      (parse_timestamp : string -> option Z)
      (parse_float : string -> option Q) (now : nat -> Z)
      (st : DWLRStation) (batch : list pydict) :
  forall (w w' : world) (count count' : nat),
    sync_loop parse_timestamp parse_float now st batch w count
    = Ok (w', count') ->
    (List.length (rows w') + count = List.length (rows w) + count')%nat /\
    (count <= count' <= count + List.length batch)%nat.
Proof.
  induction batch as [|data rest IH]; intros w w' count count'; cbn [sync_loop].
  - intros H. injection H as <- <-. simpl. lia.
  - destruct (sync_record parse_timestamp parse_float now st data w count)
      as [[w1 c1]|e] eqn:R; [|discriminate].
    cbn [bind fst snd]. intros L. destruct (IH _ _ _ _ L) as [I1 I2].
    destruct (sync_record_cases _ _ _ _ _ _ _ _ _ R)
      as [ts [d [wle [created [U [C _]]]]]].
    destruct (update_or_create_cases _ _ _ _ _ _ _ _ U)
      as [[-> [_ E]] | [-> [_ E]]]; rewrite E in I1.
    + rewrite length_app in I1. cbn [List.length] in *. lia.
    + rewrite length_map in I1. cbn [List.length] in *. lia.
Qed.

(** X12: when [sync_water_levels] returns, the count it returns is the number
    of rows the table has gained, which is at most the size of the batch:
    records that overwrite a stored reading are not counted. *)
Theorem sync_water_levels_count
        (parse_timestamp : string -> option Z)
        (parse_float : string -> option Q) (now : nat -> Z)
        (st st' : DWLRStation) (batch : list pydict) (w w' : world)
        (count : nat) :
  sync_water_levels parse_timestamp parse_float now st batch w
  = (Ok (count, st'), w') ->
  List.length (rows w') = (List.length (rows w) + count)%nat /\
  (count <= List.length batch)%nat.
Proof.
  unfold sync_water_levels.
  destruct (sync_loop parse_timestamp parse_float now st batch w 0)
    as [[w1 c]|e] eqn:L; [|discriminate].
  cbn [timezone_now]. intros H. injection H as <- _ <-. cbn [rows].
  destruct (sync_loop_growth _ _ _ _ _ _ _ _ _ L) as [G B]. lia.
Qed.

Lemma sync_water_levels_count_witness :
  List.length (rows (snd (sync_water_levels
                            sample_parse_timestamp sample_parse_float
                            sample_now sample_station sample_batch
                            sample_world)))
  = (List.length (rows sample_world) + 1)%nat /\
  (1 <= List.length sample_batch)%nat.
Proof.
  eapply (sync_water_levels_count sample_parse_timestamp sample_parse_float
            sample_now sample_station _ sample_batch sample_world).
  vm_compute. reflexivity.
Defined.

(** ** Each record updates or creates *)

Lemma overwritten_set_defaults (st : DWLRStation) (ts : Z) (d : Q)
      (l : list WaterLevel) :
  Forall2 (overwritten st ts d) l
          (map (set_defaults (station_code st) ts d (elevation_of st d)
                             "CGWB_API") l).
Proof.
  induction l as [|wl l IH]; cbn [map]; constructor; [|exact IH].
  unfold overwritten, set_defaults, stored_reading.
  destruct (row_matches (station_code st) ts wl) eqn:M.
  - apply row_matches_key in M. split; [|intros N; now elim N].
    intros _. unfold row_key in M. injection M as -> ->. reflexivity.
  - split; [|reflexivity].
    intros K. apply row_matches_key in K. congruence.
Qed.

Lemma sync_record_synced
      (parse_timestamp : string -> option Z)
      (parse_float : string -> option Q) (now : nat -> Z)
      (st : DWLRStation) (data : pydict) (w w' : world) (count count' : nat) :
  sync_record parse_timestamp parse_float now st data w count
  = Ok (w', count') ->
  exists created : bool,
    count' = (if created then S count else count) /\
    record_synced parse_timestamp parse_float now st data w w' created.
Proof.
  intros R.
  destruct (sync_record_cases _ _ _ _ _ _ _ _ _ R)
    as [ts [d [wle [created [U [C [D [W T]]]]]]]].
  exists created. split; [exact C|]. exists ts, d.
  split; [exact T|]. split; [exact D|]. subst wle.
  destruct (update_or_create_cases _ _ _ _ _ _ _ _ U)
    as [[-> [N E]] | [-> [I E]]].
  - split; [|exact E]. intros wl Hwl K. apply N.
    rewrite <- K. now apply in_map.
  - split.
    + apply in_map_iff in I. destruct I as [wl [K Hwl]]. now exists wl.
    + rewrite E. apply overwritten_set_defaults.
Qed.

Lemma sync_loop_synced
      (parse_timestamp : string -> option Z)
      (parse_float : string -> option Q) (now : nat -> Z)
      (st : DWLRStation) (batch : list pydict) :
  forall (w w' : world) (count count' : nat),
    unique_rows (rows w) ->
    sync_loop parse_timestamp parse_float now st batch w count
    = Ok (w', count') ->
    exists n, count' = (count + n)%nat /\
              batch_synced parse_timestamp parse_float now st batch w w' n.
Proof.
  induction batch as [|data rest IH]; intros w w' count count' U L.
  - cbn in L. injection L as <- <-. exists O. split; [lia|constructor].
  - cbn [sync_loop] in L.
    destruct (sync_record parse_timestamp parse_float now st data w count)
      as [[w1 c1]|e] eqn:R; [|discriminate].
    cbn [bind fst snd] in L.
    destruct (sync_record_unique _ _ _ _ _ _ _ _ _ U R) as [U1 _].
    destruct (sync_record_synced _ _ _ _ _ _ _ _ _ R) as [created [C S1]].
    destruct (IH _ _ _ _ U1 L) as [n [Cn Sn]].
    exists (if created then S n else n). split.
    + subst. destruct created; lia.
    + econstructor; eassumption.
Qed.

Lemma sync_record_readable
      (parse_timestamp : string -> option Z)
      (parse_float : string -> option Q) (now : nat -> Z)
      (st : DWLRStation) (data : pydict) (w : world) (count : nat) :
  unique_rows (rows w) ->
  record_readable parse_timestamp parse_float data ->
  exists w' count',
    sync_record parse_timestamp parse_float now st data w count
    = Ok (w', count').
Proof.
  intros U [T [d D]]. unfold sync_record.
  fold (record_timestamp_value data). fold (record_depth_value data).
  assert (X : exists ts w1,
             match record_timestamp_value data with
             | PyStr s => match parse_timestamp s with
                          | Some t => Ok (t, w)
                          | None => Raise ValueError
                          end
             | _ => Ok (timezone_now now w)
             end = Ok (ts, w1) /\ rows w1 = rows w).
  { destruct (record_timestamp_value data) as [|s|z|q];
      try (eexists _, _; split; reflexivity).
    destruct (parse_timestamp s) as [t|]; [|now elim T].
    eexists _, _; split; reflexivity. }
  destruct X as [ts [w1 [-> Hrows]]]. cbn [bind]. rewrite D. cbn [bind].
  rewrite Hrows. unfold update_or_create.
  destruct (unique_rows_one_match (station_code st) ts (rows w) U)
    as [-> | [wl ->]]; cbn [bind]; eexists _, _; reflexivity.
Qed.

Lemma sync_loop_readable
      (parse_timestamp : string -> option Z)
      (parse_float : string -> option Q) (now : nat -> Z)
      (st : DWLRStation) (batch : list pydict) :
  forall (w : world) (count : nat),
    unique_rows (rows w) ->
    (forall data, In data batch ->
                  record_readable parse_timestamp parse_float data) ->
    exists w' count',
      sync_loop parse_timestamp parse_float now st batch w count
      = Ok (w', count').
Proof.
  induction batch as [|data rest IH]; intros w count U A.
  - eexists _, _. reflexivity.
  - cbn [sync_loop].
    destruct (sync_record_readable parse_timestamp parse_float now st data w
                count U (A data (or_introl eq_refl))) as [w1 [c1 R]].
    rewrite R. cbn [bind fst snd].
    destruct (sync_record_unique _ _ _ _ _ _ _ _ _ U R) as [U1 _].
    apply IH; [exact U1|]. intros d' Hd'. apply A. now right.
Qed.

(** C7: on a table that is unique per (station, timestamp),
    [sync_water_levels] leaves a table that is unique, whatever the batch and
    whether or not the call raises.  When it returns, it has gone through
    the records of the batch in order, and for each of them it has updated
    the reading stored for the station and the record's timestamp if there
    was one, and has created the record's reading otherwise, the table being
    unique after every record; the count returned is the number of readings
    created.  When it raises, the table is as before the call.  It returns
    whenever every record of the batch can be read. *)
Theorem sync_water_levels_unique
        (parse_timestamp : string -> option Z)
        (parse_float : string -> option Q) (now : nat -> Z)
        (st : DWLRStation) (batch : list pydict) (w : world) :
  unique_rows (rows w) ->
  unique_rows
    (rows (snd (sync_water_levels parse_timestamp parse_float now st batch w)))
  /\
  (forall count st' w',
     sync_water_levels parse_timestamp parse_float now st batch w
     = (Ok (count, st'), w') ->
     exists w1,
       batch_synced parse_timestamp parse_float now st batch w w1 count /\
       rows w' = rows w1)
  /\
  (forall e w',
     sync_water_levels parse_timestamp parse_float now st batch w
     = (Raise e, w') ->
     w' = w)
  /\
  ((forall data, In data batch ->
                 record_readable parse_timestamp parse_float data) ->
   exists count st' w',
     sync_water_levels parse_timestamp parse_float now st batch w
     = (Ok (count, st'), w')).
Proof.
  intros U. unfold sync_water_levels.
  destruct (sync_loop parse_timestamp parse_float now st batch w 0)
    as [[w1 count]|e] eqn:L; cbn [timezone_now snd rows].
  - split; [exact (sync_loop_unique _ _ _ _ _ _ _ _ _ U L)|].
    split; [|split].
    + intros c st' w' H. injection H as <- _ <-. cbn [rows].
      destruct (sync_loop_synced _ _ _ _ _ _ _ _ _ U L) as [n [-> S1]].
      exists w1. split; [exact S1 | reflexivity].
    + intros e w' H. discriminate H.
    + intros _. eexists _, _, _. reflexivity.
  - split; [exact U|]. split; [|split].
    + intros c st' w' H. discriminate H.
    + intros e' w' H. now injection H as _ <-.
    + intros A.
      destruct (sync_loop_readable parse_timestamp parse_float now st batch
                  w O U A) as [w' [c' L']].
      rewrite L' in L. discriminate L.
Qed.

Lemma sync_water_levels_unique_witness :
  unique_rows
    (rows (snd (sync_water_levels sample_parse_timestamp sample_parse_float
                                  sample_now sample_station sample_batch
                                  sample_world)))
  /\
  (forall count st' w',
     sync_water_levels sample_parse_timestamp sample_parse_float sample_now
                       sample_station sample_batch sample_world
     = (Ok (count, st'), w') ->
     exists w1,
       batch_synced sample_parse_timestamp sample_parse_float sample_now
                    sample_station sample_batch sample_world w1 count /\
       rows w' = rows w1)
  /\
  (forall e w',
     sync_water_levels sample_parse_timestamp sample_parse_float sample_now
                       sample_station sample_batch sample_world
     = (Raise e, w') ->
     w' = sample_world)
  /\
  ((forall data, In data sample_batch ->
                 record_readable sample_parse_timestamp sample_parse_float
                                 data) ->
   exists count st' w',
     sync_water_levels sample_parse_timestamp sample_parse_float sample_now
                       sample_station sample_batch sample_world
     = (Ok (count, st'), w')).
Proof.
  apply (sync_water_levels_unique sample_parse_timestamp sample_parse_float
           sample_now sample_station sample_batch sample_world).
  unfold unique_rows. cbv [sample_world rows sample_readings map row_key
                           reading station timestamp].
  repeat constructor; cbn [In]; intros H;
    repeat (destruct H as [H | H]; [discriminate H|]); exact H.
Defined.

(** ** Readings of other stations *)

Lemma rows_of_set_defaults (other code : string) (ts : Z) (d : Q)
      (wle : option Q) (src : string) (l : list WaterLevel) :
  other <> code ->
  rows_of other (map (set_defaults code ts d wle src) l) = rows_of other l.
Proof.
  intros N. unfold rows_of. induction l as [|x l IH]; [reflexivity|].
  cbn [map filter]. rewrite IH. unfold set_defaults, row_matches.
  destruct (String.eqb (station x) code) eqn:E; cbn [andb]; [|reflexivity].
  apply String.eqb_eq in E.
  destruct (timestamp x =? ts)%Z; [|reflexivity].
  cbn [station].
  destruct (String.eqb (station x) other) eqn:E'; [|reflexivity].
  apply String.eqb_eq in E'. congruence.
Qed.

Lemma rows_of_sync_loop
      (parse_timestamp : string -> option Z)
      (parse_float : string -> option Q) (now : nat -> Z)
      (st : DWLRStation) (other : string) (batch : list pydict) :
  other <> station_code st ->
  forall (w w' : world) (count count' : nat),
    sync_loop parse_timestamp parse_float now st batch w count
    = Ok (w', count') ->
    rows_of other (rows w') = rows_of other (rows w).
Proof.
  intros N. induction batch as [|data rest IH]; intros w w' count count';
    cbn [sync_loop].
  - intros H. now injection H as <- _.
  - destruct (sync_record parse_timestamp parse_float now st data w count)
      as [[w1 c1]|e] eqn:R; [|discriminate].
    cbn [bind fst snd]. intros L. rewrite (IH _ _ _ _ L).
    destruct (sync_record_cases _ _ _ _ _ _ _ _ _ R)
      as [ts [d [wle [created [U _]]]]].
    destruct (update_or_create_cases _ _ _ _ _ _ _ _ U)
      as [[_ [_ ->]] | [_ [_ ->]]].
    + unfold rows_of. rewrite filter_app. cbn [filter station].
      destruct (String.eqb (station_code st) other) eqn:E.
      * apply String.eqb_eq in E. congruence.
      * apply app_nil_r.
    + now apply rows_of_set_defaults.
Qed.

(** X13: a sync for one station leaves the readings of every other station
    exactly as they were, in the same order, whether or not the call
    raises. *)
Theorem sync_water_levels_other_stations
        (parse_timestamp : string -> option Z)
        (parse_float : string -> option Q) (now : nat -> Z)
        (st : DWLRStation) (other : string) (batch : list pydict)
        (w : world) :
  other <> station_code st ->
  rows_of other
    (rows (snd (sync_water_levels parse_timestamp parse_float now
                                  st batch w)))
  = rows_of other (rows w).
Proof.
  intros N. unfold sync_water_levels.
  destruct (sync_loop parse_timestamp parse_float now st batch w 0)
    as [[w1 c]|e] eqn:L; [|reflexivity].
  cbn [timezone_now snd rows].
  exact (rows_of_sync_loop _ _ _ _ _ _ N _ _ _ _ L).
Qed.

Lemma sync_water_levels_other_stations_witness :
  rows_of "STN1001"
    (rows (snd (sync_water_levels sample_parse_timestamp sample_parse_float
                                  sample_now bare_station sample_batch
                                  sample_world)))
  = rows_of "STN1001" (rows sample_world).
Proof.
  apply (sync_water_levels_other_stations
           sample_parse_timestamp sample_parse_float sample_now
           bare_station "STN1001" sample_batch sample_world).
  discriminate.
Defined.

(** ** What a sync stores *)

Lemma sync_loop_app
      (parse_timestamp : string -> option Z)
      (parse_float : string -> option Q) (now : nat -> Z)
      (st : DWLRStation) (b1 b2 : list pydict) :
  forall (w : world) (count : nat),
    sync_loop parse_timestamp parse_float now st (b1 ++ b2) w count =
    (wc <- sync_loop parse_timestamp parse_float now st b1 w count ;;
     sync_loop parse_timestamp parse_float now st b2 (fst wc) (snd wc)).
Proof.
  induction b1 as [|data rest IH]; intros w count; cbn [app sync_loop].
  - reflexivity.
  - destruct (sync_record parse_timestamp parse_float now st data w count)
      as [[w1 c1]|e]; cbn [bind fst snd]; [apply IH | reflexivity].
Qed.

Lemma filter_set_defaults (code : string) (ts : Z) (d : Q) (wle : option Q)
      (src : string) (l : list WaterLevel) :
  filter (row_matches code ts) (map (set_defaults code ts d wle src) l) =
  map (fun _ => mkWaterLevel code ts d wle src)
      (filter (row_matches code ts) l).
Proof.
  induction l as [|x l IH]; [reflexivity|].
  cbn [map filter]. destruct (row_matches code ts x) eqn:M.
  - assert (Hset : set_defaults code ts d wle src x
                   = mkWaterLevel code ts d wle src).
    { unfold set_defaults. rewrite M. apply row_matches_key in M.
      unfold row_key in M. now injection M as -> ->. }
    assert (M' : row_matches code ts (mkWaterLevel code ts d wle src) = true)
      by (apply row_matches_key; reflexivity).
    rewrite Hset, M'. cbn [map]. now rewrite IH.
  - assert (Hset : set_defaults code ts d wle src x = x)
      by (unfold set_defaults; now rewrite M).
    rewrite Hset, M. exact IH.
Qed.

(** X14: after a sync that returns, the table holds exactly one reading for
    the station at the timestamp of the last record of the batch, that is at
    the parsed timestamp string of the record or, when the record carries
    none, at the clock reading taken for it, the last but one of the call;
    the reading carries that record's depth, the elevation derived from it
    and the source tag [CGWB_API]. *)
Theorem sync_water_levels_last_record
        (parse_timestamp : string -> option Z)
        (parse_float : string -> option Q) (now : nat -> Z)
        (st st' : DWLRStation) (batch : list pydict) (data : pydict)
        (w w' : world) (count : nat) :
  unique_rows (rows w) ->
  sync_water_levels parse_timestamp parse_float now st (batch ++ [data]) w
  = (Ok (count, st'), w') ->
  exists ts d,
    match record_timestamp_value data with
    | PyStr s => parse_timestamp s = Some ts
    | _ => (2 <= ticks w')%nat /\ ts = now (ticks w' - 2)%nat
    end /\
    py_float parse_float (record_depth_value data) = Ok d /\
    filter (row_matches (station_code st) ts) (rows w')
    = [mkWaterLevel (station_code st) ts d (elevation_of st d) "CGWB_API"].
Proof.
  intros U. unfold sync_water_levels. rewrite sync_loop_app.
  destruct (sync_loop parse_timestamp parse_float now st batch w 0)
    as [[w1 c1]|e] eqn:L1; [|discriminate].
  cbn [bind fst snd sync_loop].
  destruct (sync_record parse_timestamp parse_float now st data w1 c1)
    as [[w2 c2]|e] eqn:R; [|discriminate].
  cbn [bind fst snd timezone_now]. intros H. injection H as _ _ <-.
  cbn [rows ticks].
  pose proof (sync_loop_unique _ _ _ _ _ _ _ _ _ U L1) as U1.
  destruct (sync_record_cases _ _ _ _ _ _ _ _ _ R)
    as [ts [d [wle [created [C [_ [F [-> T]]]]]]]].
  exists ts, d. split; [|split; [exact F|]].
  - destruct (record_timestamp_value data) as [|s|z|q];
      try (destruct T as [-> ->]; split; [lia | f_equal; lia]).
    exact (proj1 T).
  - destruct (update_or_create_cases _ _ _ _ _ _ _ _ C)
      as [[_ [N ->]] | [_ [I ->]]].
    + rewrite filter_app.
      assert (filter (row_matches (station_code st) ts) (rows w1) = []) as ->.
      { destruct (filter (row_matches (station_code st) ts) (rows w1)) eqn:E;
          [reflexivity|].
        exfalso. apply N. apply filter_matches_in. rewrite E. discriminate. }
      cbn [app filter].
      assert (M : row_matches (station_code st) ts
                    (mkWaterLevel (station_code st) ts d (elevation_of st d)
                                  "CGWB_API") = true)
        by (apply row_matches_key; reflexivity).
      now rewrite M.
    + rewrite filter_set_defaults.
      destruct (unique_rows_one_match (station_code st) ts (rows w1) U1)
        as [E | [x E]]; rewrite E.
      * exfalso. apply filter_matches_in in I. now apply I.
      * reflexivity.
Qed.

Lemma sync_water_levels_last_record_witness :
  exists ts d,
    match record_timestamp_value [("water_level", PyFloat 22)]%string with
    | PyStr s => sample_parse_timestamp s = Some ts
    | _ =>
        (2 <= ticks (snd (sync_water_levels
                            sample_parse_timestamp sample_parse_float
                            sample_now sample_station sample_batch
                            sample_world)))%nat /\
        ts = sample_now
               (ticks (snd (sync_water_levels
                              sample_parse_timestamp sample_parse_float
                              sample_now sample_station sample_batch
                              sample_world)) - 2)%nat
    end /\
    py_float sample_parse_float
             (record_depth_value [("water_level", PyFloat 22)]%string)
    = Ok d /\
    filter (row_matches (station_code sample_station) ts)
           (rows (snd (sync_water_levels
                         sample_parse_timestamp sample_parse_float sample_now
                         sample_station sample_batch sample_world)))
    = [mkWaterLevel (station_code sample_station) ts d
                    (elevation_of sample_station d) "CGWB_API"].
Proof.
  eapply (sync_water_levels_last_record
            sample_parse_timestamp sample_parse_float sample_now
            sample_station _
            [[("timestamp", PyStr "1970-01-02T00:00:00");
              ("depth", PyFloat 21)]]%string
            [("water_level", PyFloat 22)]%string
            sample_world _ _).
  - unfold unique_rows. cbv [sample_world rows sample_readings map row_key
                             reading station timestamp].
    repeat constructor; cbn [In]; intros H;
      repeat (destruct H as [H | H]; [discriminate H|]); exact H.
  - vm_compute. reflexivity.
Defined.

(** ** Syncing the same batch again *)

Lemma sync_record_payload
      (parse_timestamp : string -> option Z)
      (parse_float : string -> option Q) (now : nat -> Z)
      (st : DWLRStation) (data : pydict) (w w' : world) (count count' : nat) :
  payload_timestamp data = true ->
  sync_record parse_timestamp parse_float now st data w count
  = Ok (w', count') ->
  exists op,
    forall w0 c0,
      sync_record parse_timestamp parse_float now st data w0 c0 =
      (res <- update_or_create (station_code st) (op_ts op) (op_depth op)
                               (op_wle op) "CGWB_API" (rows w0) ;;
       Ok ({| rows := snd res; ticks := ticks w0 |},
           if fst res then S c0 else c0)).
Proof.
  unfold payload_timestamp, sync_record.
  fold (record_timestamp_value data). fold (record_depth_value data).
  destruct (record_timestamp_value data) as [|s|z|q]; try discriminate.
  intros _. destruct (parse_timestamp s) as [t|]; [|discriminate].
  cbn [bind].
  destruct (py_float parse_float (record_depth_value data)) as [d|e];
    [|discriminate].
  intros _. exists (mkOp t d (elevation_of st d)). intros w0 c0.
  cbn [bind op_ts op_depth op_wle]. fold (elevation_of st d).
  destruct (update_or_create _ _ _ _ _ _) as [[created l]|e]; reflexivity.
Qed.

Lemma sync_loop_payload
      (parse_timestamp : string -> option Z)
      (parse_float : string -> option Q) (now : nat -> Z)
      (st : DWLRStation) (batch : list pydict) :
  (forall data, In data batch -> payload_timestamp data = true) ->
  forall (w w' : world) (count count' : nat),
    sync_loop parse_timestamp parse_float now st batch w count
    = Ok (w', count') ->
    exists ops,
      forall w0 c0,
        sync_loop parse_timestamp parse_float now st batch w0 c0 =
        (r <- apply_ops (station_code st) ops (rows w0) c0 ;;
         Ok ({| rows := fst r; ticks := ticks w0 |}, snd r)).
Proof.
  induction batch as [|data rest IH]; intros P w w' count count' L.
  - exists []. intros [l n] c0. reflexivity.
  - cbn [sync_loop] in L.
    destruct (sync_record parse_timestamp parse_float now st data w count)
      as [[w1 c1]|e] eqn:R; [|discriminate].
    cbn [bind fst snd] in L.
    destruct (sync_record_payload _ _ _ _ _ _ _ _ _ (P data (or_introl eq_refl)) R)
      as [op Hop].
    destruct (IH (fun d H => P d (or_intror H)) _ _ _ _ L) as [ops Hops].
    exists (op :: ops). intros w0 c0. cbn [sync_loop apply_ops].
    rewrite Hop.
    destruct (update_or_create _ _ _ _ _ _) as [[created l]|e];
      cbn [bind fst snd]; [|reflexivity].
    rewrite Hops. reflexivity.
Qed.

Lemma write_all_key (code : string) (ops : list sync_op) :
  forall wl, row_key (write_all code ops wl) = row_key wl.
Proof.
  unfold write_all. induction ops as [|op rest IH]; intros wl; cbn [fold_left].
  - reflexivity.
  - rewrite IH. apply set_defaults_key.
Qed.

Lemma row_matches_same_key (code : string) (ts : Z) (a b : WaterLevel) :
  row_key a = row_key b -> row_matches code ts a = row_matches code ts b.
Proof.
  unfold row_key, row_matches. intros H. now injection H as -> ->.
Qed.

Lemma set_defaults_same_key (code : string) (ts : Z) (d : Q)
      (wle : option Q) (src : string) (a b : WaterLevel) :
  row_key a = row_key b -> row_matches code ts a = true ->
  set_defaults code ts d wle src a = set_defaults code ts d wle src b.
Proof.
  intros K M. unfold set_defaults.
  rewrite <- (row_matches_same_key code ts a b K), M.
  unfold row_key in K. now injection K as -> ->.
Qed.

(** A row no write addresses stays as it is. *)
Lemma write_all_untouched (code : string) (ops : list sync_op) :
  forall wl,
    (forall op, In op ops -> row_matches code (op_ts op) wl = false) ->
    write_all code ops wl = wl.
Proof.
  unfold write_all. induction ops as [|op rest IH]; intros wl H; cbn [fold_left].
  - reflexivity.
  - assert (E : set_defaults code (op_ts op) (op_depth op) (op_wle op)
                             "CGWB_API" wl = wl).
    { unfold set_defaults. now rewrite (H op (or_introl eq_refl)). }
    rewrite E. apply IH. intros o Ho. apply H. now right.
Qed.

(** What the writes leave in a row they address depends on its key only. *)
Lemma write_all_touched (code : string) (ops : list sync_op) :
  forall a b,
    row_key a = row_key b ->
    (exists op, In op ops /\ row_matches code (op_ts op) a = true) ->
    write_all code ops a = write_all code ops b.
Proof.
  unfold write_all. induction ops as [|op rest IH]; intros a b K [o [Ho M]].
  - contradiction.
  - cbn [fold_left].
    set (a' := set_defaults code (op_ts op) (op_depth op) (op_wle op)
                            "CGWB_API" a).
    set (b' := set_defaults code (op_ts op) (op_depth op) (op_wle op)
                            "CGWB_API" b).
    assert (K' : row_key a' = row_key b')
      by (unfold a', b'; now rewrite !set_defaults_key).
    destruct (row_matches code (op_ts op) a) eqn:Ma.
    + assert (a' = b') as -> by (now apply set_defaults_same_key).
      reflexivity.
    + destruct Ho as [<- | Ho]; [congruence|].
      apply IH; [exact K'|]. exists o. split; [exact Ho|].
      rewrite <- M. apply row_matches_same_key. unfold a'.
      apply set_defaults_key.
Qed.

Lemma touched_or_not (code : string) (ops : list sync_op) (wl : WaterLevel) :
  (exists op, In op ops /\ row_matches code (op_ts op) wl = true) \/
  (forall op, In op ops -> row_matches code (op_ts op) wl = false).
Proof.
  induction ops as [|op rest IH].
  - right. intros op [].
  - destruct (row_matches code (op_ts op) wl) eqn:M.
    + left. exists op. split; [now left | exact M].
    + destruct IH as [[o [Ho Mo]] | IH].
      * left. exists o. split; [now right | exact Mo].
      * right. intros o [<- | Ho]; [exact M | now apply IH].
Qed.

Lemma rows_after_write (code : string) (ts : Z) (d : Q) (wle : option Q)
      (src : string) (l l' : list WaterLevel) (created : bool) :
  update_or_create code ts d wle src l = Ok (created, l') ->
  forall row,
    In row l' -> row_matches code ts row = true ->
    row = mkWaterLevel code ts d wle src.
Proof.
  intros U row I M.
  destruct (update_or_create_cases _ _ _ _ _ _ _ _ U)
    as [[_ [N ->]] | [_ [_ ->]]].
  - apply in_app_or in I. destruct I as [I | [<- | []]]; [|reflexivity].
    exfalso. apply N. apply row_matches_key in M. rewrite <- M.
    now apply in_map.
  - apply in_map_iff in I. destruct I as [x [<- Ix]].
    unfold set_defaults in *.
    destruct (row_matches code ts x) eqn:Mx.
    + apply row_matches_key in Mx. unfold row_key in Mx.
      now injection Mx as -> ->.
    + congruence.
Qed.

Lemma rows_before_write (code : string) (ts : Z) (d : Q) (wle : option Q)
      (src : string) (l l' : list WaterLevel) (created : bool) :
  update_or_create code ts d wle src l = Ok (created, l') ->
  forall row,
    In row l' -> row_matches code ts row = false -> In row l.
Proof.
  intros U row I M.
  destruct (update_or_create_cases _ _ _ _ _ _ _ _ U)
    as [[_ [_ ->]] | [_ [_ ->]]].
  - apply in_app_or in I. destruct I as [I | [<- | []]]; [exact I|].
    assert (row_matches code ts (mkWaterLevel code ts d wle src) = true)
      by (apply row_matches_key; reflexivity).
    congruence.
  - apply in_map_iff in I. destruct I as [x [<- Ix]].
    unfold set_defaults in *.
    destruct (row_matches code ts x) eqn:Mx; [|exact Ix].
    assert (row_matches code ts
              (mkWaterLevel (station x) (timestamp x) d wle src) = true).
    { rewrite <- Mx. now apply row_matches_same_key. }
    congruence.
Qed.

(** Rows that none of the writes addresses were in the table before. *)
Lemma apply_ops_untouched (code : string) (ops : list sync_op) :
  forall l c l1 c1,
    apply_ops code ops l c = Ok (l1, c1) ->
    forall row,
      In row l1 ->
      (forall op, In op ops -> row_matches code (op_ts op) row = false) ->
      In row l.
Proof.
  induction ops as [|op rest IH]; intros l c l1 c1 A row I H;
    cbn [apply_ops] in A.
  - now injection A as <- _.
  - destruct (update_or_create code (op_ts op) (op_depth op) (op_wle op)
                               "CGWB_API" l) as [[created l']|e] eqn:U;
      [|discriminate].
    cbn [bind fst snd] in A.
    apply (rows_before_write _ _ _ _ _ _ _ _ U).
    + apply (IH _ _ _ _ A); [exact I|]. intros o Ho. apply H. now right.
    + apply H. now left.
Qed.

(** After the writes of a batch, writing the batch once more changes no
    row. *)
Lemma apply_ops_fixpoint (code : string) (ops : list sync_op) :
  forall l c l1 c1,
    apply_ops code ops l c = Ok (l1, c1) ->
    forall row, In row l1 -> write_all code ops row = row.
Proof.
  induction ops as [|op rest IH]; intros l c l1 c1 A row I;
    cbn [apply_ops] in A.
  - reflexivity.
  - destruct (update_or_create code (op_ts op) (op_depth op) (op_wle op)
                               "CGWB_API" l) as [[created l']|e] eqn:U;
      [|discriminate].
    cbn [bind fst snd] in A.
    pose proof (IH _ _ _ _ A row I) as Hrest.
    change (write_all code (op :: rest) row)
      with (write_all code rest
              (set_defaults code (op_ts op) (op_depth op) (op_wle op)
                            "CGWB_API" row)).
    destruct (row_matches code (op_ts op) row) eqn:M.
    + destruct (touched_or_not code rest row) as [[o [Ho Mo]] | Hun].
      * rewrite (write_all_touched code rest _ row).
        -- exact Hrest.
        -- apply set_defaults_key.
        -- exists o. split; [exact Ho|]. rewrite <- Mo.
           apply row_matches_same_key, set_defaults_key.
      * pose proof (apply_ops_untouched _ _ _ _ _ _ A row I Hun) as I'.
        pose proof (rows_after_write _ _ _ _ _ _ _ _ U row I' M) as E.
        rewrite write_all_untouched.
        -- rewrite E at 2. unfold set_defaults. rewrite M. rewrite E.
           reflexivity.
        -- intros o Ho. rewrite <- (Hun o Ho).
           apply row_matches_same_key, set_defaults_key.
    + unfold set_defaults. rewrite M. exact Hrest.
Qed.

Lemma update_or_create_keys (code : string) (ts : Z) (d : Q)
      (wle : option Q) (src : string) (l l' : list WaterLevel)
      (created : bool) :
  update_or_create code ts d wle src l = Ok (created, l') ->
  In (code, ts) (map row_key l') /\
  (forall k, In k (map row_key l) -> In k (map row_key l')).
Proof.
  intros U.
  destruct (update_or_create_cases _ _ _ _ _ _ _ _ U)
    as [[_ [_ ->]] | [_ [I ->]]].
  - rewrite map_app. split.
    + apply in_or_app. right. now left.
    + intros k Hk. apply in_or_app. now left.
  - rewrite set_defaults_keys. split; [exact I | trivial].
Qed.

Lemma apply_ops_keys (code : string) (ops : list sync_op) :
  forall l c l1 c1,
    apply_ops code ops l c = Ok (l1, c1) ->
    (forall k, In k (map row_key l) -> In k (map row_key l1)) /\
    (forall op, In op ops -> In (code, op_ts op) (map row_key l1)).
Proof.
  induction ops as [|op rest IH]; intros l c l1 c1 A; cbn [apply_ops] in A.
  - injection A as <- _. split; [trivial | intros op []].
  - destruct (update_or_create code (op_ts op) (op_depth op) (op_wle op)
                               "CGWB_API" l) as [[created l']|e] eqn:U;
      [|discriminate].
    cbn [bind fst snd] in A.
    destruct (IH _ _ _ _ A) as [K1 K2].
    destruct (update_or_create_keys _ _ _ _ _ _ _ _ U) as [N1 N2].
    split.
    + intros k Hk. apply K1, N2, Hk.
    + intros o [<- | Ho]; [apply K1, N1 | now apply K2].
Qed.

(** On a table that already has all the keys, the batch only overwrites. *)
Lemma apply_ops_overwrites (code : string) (ops : list sync_op) :
  forall l c,
    unique_rows l ->
    (forall op, In op ops -> In (code, op_ts op) (map row_key l)) ->
    apply_ops code ops l c = Ok (map (write_all code ops) l, c).
Proof.
  induction ops as [|op rest IH]; intros l c U H; cbn [apply_ops].
  - unfold write_all. cbn [fold_left]. now rewrite map_id.
  - destruct (update_or_create_unique code (op_ts op) (op_depth op)
                (op_wle op) "CGWB_API" l U)
      as [created [l' [E [U' B]]]].
    rewrite E. cbn [bind fst snd].
    destruct B as [[_ [N _]] | [-> [_ ->]]].
    + exfalso. apply N, H. now left.
    + rewrite IH.
      * now rewrite map_map.
      * exact U'.
      * intros o Ho. rewrite set_defaults_keys. apply H. now right.
Qed.

(** X15: syncing the same batch a second time creates nothing and leaves
    every row as the first sync left it, provided all its records carry
    their own timestamp (a record without one is stamped with the clock and
    so is new each time). *)
Theorem sync_water_levels_again
        (parse_timestamp : string -> option Z)
        (parse_float : string -> option Q) (now : nat -> Z)
        (st st1 : DWLRStation) (batch : list pydict) (w w1 : world)
        (count : nat) :
  unique_rows (rows w) ->
  (forall data, In data batch -> payload_timestamp data = true) ->
  sync_water_levels parse_timestamp parse_float now st batch w
  = (Ok (count, st1), w1) ->
  exists st2 w2,
    sync_water_levels parse_timestamp parse_float now st batch w1
    = (Ok (O, st2), w2) /\
    rows w2 = rows w1.
Proof.
  intros U P. unfold sync_water_levels.
  destruct (sync_loop parse_timestamp parse_float now st batch w 0)
    as [[w' c]|e] eqn:L; [|discriminate].
  cbn [timezone_now]. intros H. injection H as <- _ <-.
  destruct (sync_loop_payload _ _ _ _ _ P _ _ _ _ L) as [ops Hops].
  pose proof (sync_loop_unique _ _ _ _ _ _ _ _ _ U L) as U'.
  rewrite Hops in L.
  destruct (apply_ops (station_code st) ops (rows w) 0) as [[l1 c1]|e] eqn:A;
    [|discriminate].
  cbn [bind fst snd] in L. injection L as <- <-. cbn [rows] in *.
  rewrite Hops. cbn [rows ticks].
  destruct (apply_ops_keys _ _ _ _ _ _ A) as [_ K].
  rewrite (apply_ops_overwrites _ _ _ _ U' K). cbn [bind fst snd].
  do 2 eexists. split; [reflexivity|]. cbn [rows].
  rewrite <- (map_id l1) at 2. apply map_ext_in.
  exact (apply_ops_fixpoint _ _ _ _ _ _ A).
Qed.

Lemma sync_water_levels_again_witness :
  exists st2 w2,
    sync_water_levels sample_parse_timestamp sample_parse_float sample_now
      sample_station payload_batch
      (snd (sync_water_levels sample_parse_timestamp sample_parse_float
              sample_now sample_station payload_batch sample_world))
    = (Ok (O, st2), w2) /\
    rows w2
    = rows (snd (sync_water_levels sample_parse_timestamp sample_parse_float
                   sample_now sample_station payload_batch sample_world)).
Proof.
  eapply (sync_water_levels_again
            sample_parse_timestamp sample_parse_float sample_now
            sample_station _ payload_batch sample_world _ _).
  - unfold unique_rows. cbv [sample_world rows sample_readings map row_key
                             reading station timestamp].
    repeat constructor; cbn [In]; intros H;
      repeat (destruct H as [H | H]; [discriminate H|]); exact H.
  - intros data [<- | [<- | []]]; reflexivity.
  - vm_compute. reflexivity.
Defined.

(** ** A record that cannot be read *)

Lemma sync_loop_bad_timestamp
      (parse_timestamp : string -> option Z)
      (parse_float : string -> option Q) (now : nat -> Z)
      (st : DWLRStation) (data : pydict) (s : string)
      (batch : list pydict) :
  In data batch ->
  record_timestamp_value data = PyStr s -> parse_timestamp s = None ->
  forall w count,
    exists e,
      sync_loop parse_timestamp parse_float now st batch w count = Raise e.
Proof.
  intros I T P. induction batch as [|x rest IH]; [contradiction|].
  intros w count. cbn [sync_loop].
  destruct (sync_record parse_timestamp parse_float now st x w count)
    as [[w1 c1]|e] eqn:R.
  - cbn [bind fst snd]. destruct I as [-> | I]; [|now apply IH].
    exfalso. unfold sync_record in R. fold (record_timestamp_value data) in R.
    rewrite T, P in R. discriminate R.
  - exists e. reflexivity.
Qed.

(** X16: one record whose timestamp string cannot be parsed makes the whole
    call raise, and nothing of the batch is stored, not even the records
    before it. *)
Theorem sync_water_levels_bad_timestamp
        (parse_timestamp : string -> option Z)
        (parse_float : string -> option Q) (now : nat -> Z)
        (st : DWLRStation) (data : pydict) (s : string)
        (batch : list pydict) (w : world) :
  In data batch ->
  record_timestamp_value data = PyStr s -> parse_timestamp s = None ->
  exists e,
    sync_water_levels parse_timestamp parse_float now st batch w
    = (Raise e, w).
Proof.
  intros I T P. unfold sync_water_levels.
  destruct (sync_loop_bad_timestamp parse_timestamp parse_float now st
              data s batch I T P w 0) as [e ->].
  now exists e.
Qed.

Lemma sync_water_levels_bad_timestamp_witness :
  exists e,
    sync_water_levels sample_parse_timestamp sample_parse_float sample_now
                      sample_station broken_batch sample_world
    = (Raise e, sample_world).
Proof.
  apply (sync_water_levels_bad_timestamp
           sample_parse_timestamp sample_parse_float sample_now
           sample_station
           [("timestamp", PyStr "yesterday"); ("depth", PyFloat 22)]%string
           "yesterday"%string broken_batch sample_world).
  - right. now left.
  - reflexivity.
  - reflexivity.
Defined.

(** * Properties of [calculate_resource_metrics] *)

Lemma calculate_recharge_total (wls : list WaterLevel) (st : DWLRStation) :
  exists r, calculate_recharge wls st = Ok r.
Proof.
  destruct (le_lt_dec 2 (List.length wls)) as [H | H].
  - rewrite (calculate_recharge_value wls st H). now eexists.
  - unfold calculate_recharge. apply Nat.ltb_lt in H. rewrite H. now eexists.
Qed.

Lemma calculate_storage_total (st : DWLRStation) (current_depth : Q) :
  exists r,
    calculate_storage st current_depth = Ok r /\
    (truthy (well_depth st) = false -> r = no_storage).
Proof.
  unfold truthy. destruct (well_depth st) as [wd|] eqn:W.
  - destruct (Qeq_bool wd 0) eqn:Z0.
    + unfold calculate_storage. rewrite W, Z0. now eexists.
    + apply Qeq_bool_false in Z0.
      rewrite (calculate_storage_value st current_depth wd W Z0).
      eexists. split; [reflexivity | discriminate].
  - unfold calculate_storage. rewrite W. now eexists.
Qed.

Lemma determine_alert_status_total
      (sp : option Q) (trend : string) (current_depth : Q)
      (well_depth : option Q) :
  exists label,
    determine_alert_status sp trend current_depth well_depth = Ok label /\
    In label ["critical"; "warning"; "good"; "normal"]%string /\
    (sp = None -> truthy well_depth = false -> label = "normal"%string).
Proof.
  unfold determine_alert_status, truthy. destruct sp as [p|].
  - destruct (Qltb p 20); [|destruct (Qltb p 40); [|destruct (Qgtb p 70)]];
      eexists; (split; [reflexivity|]); (split; [simpl; tauto | discriminate]).
  - destruct well_depth as [wd|].
    + destruct (Qeq_bool wd 0) eqn:Z0.
      * eexists. split; [reflexivity|]. split; [simpl; tauto | reflexivity].
      * apply Qeq_bool_false in Z0 as Hnz. rewrite (py_div_ok _ _ Hnz).
        cbn [bind negb].
        destruct (Qgtb _ 80); [|destruct (Qgtb _ 60)];
          eexists; (split; [reflexivity|]);
          (split; [simpl; tauto | intros _ H; discriminate H]).
    + eexists. split; [reflexivity|]. split; [simpl; tauto | reflexivity].
Qed.

Lemma analyze_trend_labels (wls : list WaterLevel) :
  exists r,
    analyze_trend wls = Ok r /\
    In (trend r) ["rising"; "falling"; "stable"]%string.
Proof.
  destruct (analyze_trend_total wls) as [s [E | [E _]]]; rewrite E.
  - eexists. split; [reflexivity|].
    destruct (classify_trend_cases s) as [[T _] | [[T _] | [T _]]];
      rewrite T; simpl; tauto.
  - eexists. split; [reflexivity | simpl; tauto].
Qed.

(** X17: for a period whose start date is a datetime,
    [calculate_resource_metrics] does not raise; the resource it builds is
    for the given station, its alert status is one of the four choices of
    the model, its trend one of the three or blank, and the period ends on
    the calculation date. *)
Theorem calculate_resource_metrics_total
        (now : nat -> Z) (st : DWLRStation) (period_days : Z) (w : world) :
  representable_period (now (ticks w)) period_days ->
  exists r,
    fst (calculate_resource_metrics now st period_days w) = Ok r /\
    In (GroundwaterResource.alert_status r)
       ["critical"; "warning"; "good"; "normal"]%string /\
    In (GroundwaterResource.trend r)
       ["rising"; "falling"; "stable"; ""]%string /\
    GroundwaterResource.station r = station_code st /\
    GroundwaterResource.period_end r = GroundwaterResource.calculation_date r.
Proof.
  intros _.
  unfold calculate_resource_metrics, timezone_now. cbn [rows ticks fst].
  destruct (period_readings _ _ _ _) as [|x t].
  - eexists. split; [reflexivity|]. cbn. tauto.
  - destruct (calculate_recharge_total (x :: t) st) as [rr ->].
    cbn [bind py_last].
    destruct (calculate_storage_total st (depth (last t x))) as [sr [-> _]].
    destruct (analyze_trend_labels (x :: t)) as [tr [-> Ht]].
    cbn [bind].
    destruct (determine_alert_status_total
                (storage_percentage sr) (trend tr) (depth (last t x))
                (well_depth st)) as [label [-> [Hl _]]].
    cbn [bind]. eexists. split; [reflexivity|].
    cbn [GroundwaterResource.alert_status GroundwaterResource.trend
         GroundwaterResource.station GroundwaterResource.period_end
         GroundwaterResource.calculation_date].
    split; [exact Hl|]. split; [|split; reflexivity].
    simpl in Ht |- *. tauto.
Qed.

Lemma calculate_resource_metrics_total_witness :
  exists r,
    fst (calculate_resource_metrics sample_now sample_station 365 sample_world)
    = Ok r /\
    In (GroundwaterResource.alert_status r)
       ["critical"; "warning"; "good"; "normal"]%string /\
    In (GroundwaterResource.trend r)
       ["rising"; "falling"; "stable"; ""]%string /\
    GroundwaterResource.station r = station_code sample_station /\
    GroundwaterResource.period_end r = GroundwaterResource.calculation_date r.
Proof.
  apply (calculate_resource_metrics_total
           sample_now sample_station 365 sample_world).
  unfold representable_period. vm_compute.
  repeat split; intros H; discriminate H.
Defined.

(** X18: for a period whose start date is a datetime, when the table has
    no reading of the station within the period, the resource carries no
    figure at all: every metric is null, the trend is blank and the alert
    status is normal. *)
Theorem calculate_resource_metrics_no_data
        (now : nat -> Z) (st : DWLRStation) (period_days : Z) (w : world) :
  representable_period (now (ticks w)) period_days ->
  (forall wl,
     In wl (rows w) ->
     in_period (station_code st)
               (now (ticks w) - period_days * us_per_day)%Z
               (now (ticks w)) wl = false) ->
  exists r,
    fst (calculate_resource_metrics now st period_days w) = Ok r /\
    GroundwaterResource.estimated_recharge r = None /\
    GroundwaterResource.recharge_rate r = None /\
    GroundwaterResource.current_storage r = None /\
    GroundwaterResource.available_storage r = None /\
    GroundwaterResource.storage_percentage r = None /\
    GroundwaterResource.trend_magnitude r = None /\
    GroundwaterResource.trend r = ""%string /\
    GroundwaterResource.alert_status r = "normal"%string.
Proof.
  intros _ H. unfold calculate_resource_metrics, timezone_now.
  cbn [rows ticks fst]. unfold period_readings.
  assert (filter (in_period (station_code st)
                            (now (ticks w) - period_days * us_per_day)%Z
                            (now (ticks w))) (rows w) = []) as ->.
  { induction (rows w) as [|x l IH]; [reflexivity|].
    cbn [filter]. rewrite (H x (or_introl eq_refl)).
    apply IH. intros wl Hwl. apply H. now right. }
  cbn [sorted_by_timestamp fold_right]. eexists.
  split; [reflexivity|]. cbn. tauto.
Qed.

Lemma calculate_resource_metrics_no_data_witness :
  exists r,
    fst (calculate_resource_metrics sample_now bare_station 365 sample_world)
    = Ok r /\
    GroundwaterResource.alert_status r = "normal"%string.
Proof.
  destruct (calculate_resource_metrics_no_data
              sample_now bare_station 365 sample_world) as [r [E H]].
  - unfold representable_period. vm_compute.
    repeat split; intros H; discriminate H.
  - intros wl [<- | [<- | [<- | []]]]; reflexivity.
  - exists r. split; [exact E | apply H].
Defined.

(** X19: for a period whose start date is a datetime, a station without a
    usable well depth (missing or zero) is reported normal, whatever its
    readings, and its storage figures are null: the depth-based fallback of
    the alert cannot fire there. *)
Theorem calculate_resource_metrics_no_well_depth
        (now : nat -> Z) (st : DWLRStation) (period_days : Z) (w : world) :
  representable_period (now (ticks w)) period_days ->
  truthy (well_depth st) = false ->
  exists r,
    fst (calculate_resource_metrics now st period_days w) = Ok r /\
    GroundwaterResource.alert_status r = "normal"%string /\
    GroundwaterResource.current_storage r = None /\
    GroundwaterResource.available_storage r = None /\
    GroundwaterResource.storage_percentage r = None.
Proof.
  intros _ Hw. unfold calculate_resource_metrics, timezone_now.
  cbn [rows ticks fst].
  destruct (period_readings _ _ _ _) as [|x t].
  - eexists. split; [reflexivity|]. cbn. tauto.
  - destruct (calculate_recharge_total (x :: t) st) as [rr ->].
    cbn [bind py_last].
    destruct (calculate_storage_total st (depth (last t x))) as [sr [-> Hs]].
    rewrite (Hs Hw).
    destruct (analyze_trend_labels (x :: t)) as [tr [-> _]].
    cbn [bind storage_percentage no_storage].
    destruct (determine_alert_status_total
                None (trend tr) (depth (last t x)) (well_depth st))
      as [label [-> [_ Hl]]].
    cbn [bind]. eexists. split; [reflexivity|]. cbn.
    split; [now apply Hl | tauto].
Qed.

Lemma calculate_resource_metrics_no_well_depth_witness :
  exists r,
    fst (calculate_resource_metrics
           sample_now bare_station 365
           {| rows := [ {| station := "STN1002";
                           timestamp := (6 * us_per_day)%Z; depth := 95;
                           water_level_elevation := None;
                           data_source := "SEED" |} ];
              ticks := O |})
    = Ok r /\
    GroundwaterResource.alert_status r = "normal"%string.
Proof.
  destruct (calculate_resource_metrics_no_well_depth
              sample_now bare_station 365
              {| rows := [ {| station := "STN1002";
                              timestamp := (6 * us_per_day)%Z; depth := 95;
                              water_level_elevation := None;
                              data_source := "SEED" |} ];
                 ticks := O |}) as [r [E [A _]]].
  - unfold representable_period. vm_compute.
    repeat split; intros H; discriminate H.
  - reflexivity.
  - exists r. now split.
Defined.

(** * Properties of the insights view *)

Lemma count_alert_pos (label : string)
      (resources : list GroundwaterResource.t) :
  (0 < count_alert label resources)%nat <->
  exists r, In r resources /\ GroundwaterResource.alert_status r = label.
Proof.
  unfold count_alert. split.
  - intros H.
    destruct (filter _ resources) as [|r t] eqn:F; [simpl in H; lia|].
    assert (In r (filter
                    (fun r => String.eqb (GroundwaterResource.alert_status r)
                                         label) resources)) as I
        by (rewrite F; now left).
    apply filter_In in I. destruct I as [I E].
    exists r. split; [exact I | now apply String.eqb_eq].
  - intros [r [I E]].
    assert (In r (filter
                    (fun r => String.eqb (GroundwaterResource.alert_status r)
                                         label) resources)) as F
        by (apply filter_In; split; [exact I | now apply String.eqb_eq]).
    destruct (filter _ resources); [contradiction | simpl; lia].
Qed.

Lemma no_resources_no_alerts (label : string)
      (resources : list GroundwaterResource.t) :
  count_stations_with_resources resources = O ->
  count_alert label resources = O.
Proof.
  unfold count_stations_with_resources. intros H.
  destruct resources as [|r t]; [reflexivity|].
  exfalso.
  assert (In (GroundwaterResource.station r)
             (nodup string_dec (map GroundwaterResource.station (r :: t))))
    as I by (apply nodup_In; now left).
  destruct (nodup _ _); [contradiction | simpl in H; lia].
Qed.

(** X21: the insights view always has something to say, and never more
    than two things.  A high-priority entry is there exactly when some
    resource is critical, and the low-priority "stable picture" entry never
    comes with a high or a medium one. *)
Theorem insights_shape (resources : list GroundwaterResource.t) (total : nat) :
  insights resources total <> [] /\
  (List.length (insights resources total) <= 2)%nat /\
  ((exists i, In i (insights resources total) /\ priority i = "high"%string)
   <->
   (exists r, In r resources /\
              GroundwaterResource.alert_status r = "critical"%string)) /\
  (forall i j,
     In i (insights resources total) -> In j (insights resources total) ->
     priority i = "low"%string ->
     priority j <> "high"%string /\ priority j <> "medium"%string).
Proof.
  rewrite <- count_alert_pos.
  pose proof (no_resources_no_alerts "critical" resources) as Nc.
  pose proof (no_resources_no_alerts "warning" resources) as Nw.
  unfold insights.
  set (c := count_alert "critical" resources) in *.
  set (wn := count_alert "warning" resources) in *.
  set (tr := count_stations_with_resources resources) in *.
  destruct (0 <? c)%nat eqn:E1;
    [apply Nat.ltb_lt in E1 | apply Nat.ltb_ge in E1];
    (destruct (0 <? wn)%nat eqn:E2;
     [apply Nat.ltb_lt in E2 | apply Nat.ltb_ge in E2]);
    (destruct (0 <? total)%nat eqn:E3;
     [apply Nat.ltb_lt in E3 | apply Nat.ltb_ge in E3]);
    (destruct (tr =? 0)%nat eqn:E4;
     [apply Nat.eqb_eq in E4 | apply Nat.eqb_neq in E4]);
    (destruct (3 <=? total)%nat eqn:E5;
     [apply Nat.leb_le in E5 | apply Nat.leb_gt in E5]);
    (destruct (c + wn =? 0)%nat eqn:E6;
     [apply Nat.eqb_eq in E6 | apply Nat.eqb_neq in E6]);
    try (exfalso; lia);
    try (exfalso; specialize (Nc E4); specialize (Nw E4); lia);
    cbn [andb app List.length];
    (split; [discriminate|]); (split; [lia|]);
    (split;
     [ split;
       [ intros [i [I P]]; cbn [In] in I;
         repeat (destruct I as [<- | I]; [try discriminate P; try lia|]);
         try contradiction
       | intros H; first [lia | eexists; split; [now left | reflexivity]] ]
     | intros i j I J P; cbn [In] in I, J;
       repeat (destruct I as [<- | I]; [try discriminate P|]);
       try contradiction;
       repeat (destruct J as [<- | J]; [split; discriminate|]);
       contradiction ]).
Qed.

(** * Properties of the sync-all view *)

Lemma calculate_resource_metrics_returns
      (now : nat -> Z) (st : DWLRStation) (period_days : Z) (w : world) :
  exists r,
    calculate_resource_metrics now st period_days w
    = (Ok r, {| rows := rows w; ticks := S (ticks w) |}).
Proof.
  unfold calculate_resource_metrics, timezone_now. cbn [rows ticks].
  destruct (period_readings _ _ _ _) as [|x t]; [now eexists|].
  destruct (calculate_recharge_total (x :: t) st) as [rr ->].
  cbn [bind py_last].
  destruct (calculate_storage_total st (depth (last t x))) as [sr [-> _]].
  destruct (analyze_trend_labels (x :: t)) as [tr [-> _]].
  cbn [bind].
  destruct (determine_alert_status_total
              (storage_percentage sr) (trend tr) (depth (last t x))
              (well_depth st)) as [label [-> _]].
  cbn [bind]. now eexists.
Qed.

Lemma sync_water_levels_effect
      (parse_timestamp : string -> option Z)
      (parse_float : string -> option Q) (now : nat -> Z)
      (st : DWLRStation) (batch : list pydict) (w : world) :
  match sync_water_levels parse_timestamp parse_float now st batch w with
  | (Ok (count, _), w') =>
      List.length (rows w') = (List.length (rows w) + count)%nat /\
      (unique_rows (rows w) -> unique_rows (rows w'))
  | (Raise _, w') => w' = w
  end.
Proof.
  unfold sync_water_levels.
  destruct (sync_loop parse_timestamp parse_float now st batch w 0)
    as [[w1 c]|e] eqn:L; [|reflexivity].
  cbn [timezone_now rows].
  destruct (sync_loop_growth _ _ _ _ _ _ _ _ _ L) as [G _].
  split; [lia|]. intros U.
  exact (sync_loop_unique _ _ _ _ _ _ _ _ _ U L).
Qed.

(** What one station adds to the tally and to the tables. *)
Lemma sync_all_step_tally
      (parse_timestamp : string -> option Z)
      (parse_float : string -> option Q) (now : nat -> Z)
      (fetch : nat -> string -> Z -> Z -> list pydict)
      (s : site * tally) (st : DWLRStation) :
  let s' := sync_all_step parse_timestamp parse_float now fetch s st in
  (success_count (snd s') + failed_count (snd s')
   = S (success_count (snd s) + failed_count (snd s)))%nat /\
  (List.length (rows (db (fst s'))) + total_records (snd s)
   = List.length (rows (db (fst s))) + total_records (snd s'))%nat /\
  (List.length (resources (fst s')) + success_count (snd s)
   = List.length (resources (fst s)) + success_count (snd s'))%nat /\
  (unique_rows (rows (db (fst s))) -> unique_rows (rows (db (fst s')))).
Proof.
  destruct s as [x t]. unfold sync_all_step, timezone_now. cbn [fst snd].
  destruct (fetch _ _ _ _) as [|d ds].
  - cbn [fst snd db rows resources total_records success_count failed_count].
    repeat split; try lia. trivial.
  - pose proof (sync_water_levels_effect parse_timestamp parse_float now st
                  (d :: ds) {| rows := rows (db x); ticks := S (ticks (db x)) |})
      as E.
    destruct (sync_water_levels _ _ _ _ _ _) as [[[count st']|e] w2].
    + destruct E as [G U]. cbn [rows] in G, U.
      destruct (calculate_resource_metrics_returns now st' 365 w2) as [r ->].
      cbn [fst snd db rows resources total_records success_count failed_count].
      rewrite length_app. cbn [List.length].
      repeat split; try lia. exact U.
    + subst w2.
      cbn [fst snd db rows resources total_records success_count failed_count].
      repeat split; try lia. trivial.
Qed.

Lemma sync_all_fold_tally
      (parse_timestamp : string -> option Z)
      (parse_float : string -> option Q) (now : nat -> Z)
      (fetch : nat -> string -> Z -> Z -> list pydict)
      (stations : list DWLRStation) :
  forall s,
    let s' :=
      fold_left (sync_all_step parse_timestamp parse_float now fetch)
                stations s in
    (success_count (snd s') + failed_count (snd s')
     = success_count (snd s) + failed_count (snd s) + List.length stations)%nat
    /\
    (List.length (rows (db (fst s'))) + total_records (snd s)
     = List.length (rows (db (fst s))) + total_records (snd s'))%nat /\
    (List.length (resources (fst s')) + success_count (snd s)
     = List.length (resources (fst s)) + success_count (snd s'))%nat /\
    (unique_rows (rows (db (fst s))) -> unique_rows (rows (db (fst s')))).
Proof.
  induction stations as [|st rest IH]; intros s; cbn [fold_left List.length].
  - repeat split; try lia. trivial.
  - destruct (sync_all_step_tally parse_timestamp parse_float now fetch s st)
      as [A1 [A2 [A3 A4]]].
    destruct (IH (sync_all_step parse_timestamp parse_float now fetch s st))
      as [B1 [B2 [B3 B4]]].
    repeat split; try lia. intros U. apply B4, A4, U.
Qed.

(** X24: the sync-all view counts every active station exactly once, as
    synced or as failed; the number of records it reports is the number of
    rows the water-level table has gained, each synced station gets one new
    resource row, and the readings stay unique per station and timestamp. *)
Theorem sync_all_stations_tally
        (parse_timestamp : string -> option Z)
        (parse_float : string -> option Q) (now : nat -> Z)
        (fetch : nat -> string -> Z -> Z -> list pydict)
        (stations : list DWLRStation) (x : site) :
  let result :=
    sync_all_stations parse_timestamp parse_float now fetch stations x in
  (SyncAllResponse.successful_stations (fst result)
   + SyncAllResponse.failed_stations (fst result)
   = List.length stations)%nat /\
  List.length (rows (db (snd result)))
  = (List.length (rows (db x))
     + SyncAllResponse.total_records_synced (fst result))%nat /\
  List.length (resources (snd result))
  = (List.length (resources x)
     + SyncAllResponse.successful_stations (fst result))%nat /\
  (unique_rows (rows (db x)) -> unique_rows (rows (db (snd result)))).
Proof.
  unfold sync_all_stations.
  pose proof (sync_all_fold_tally parse_timestamp parse_float now fetch
                stations
                (x, {| total_records := O; success_count := O;
                       failed_count := O |})) as F.
  destruct (fold_left _ stations _) as [x1 t].
  cbn [fst snd total_records success_count failed_count] in F.
  destruct F as [F1 [F2 [F3 F4]]].
  unfold timezone_now.
  cbn [fst snd db rows resources
       SyncAllResponse.successful_stations SyncAllResponse.failed_stations
       SyncAllResponse.total_records_synced].
  repeat split; try lia. exact F4.
Qed.

(** * The trend on binary64 floats *)

Lemma products_points (pts : list (Z * F64.float)) :
  F64.products (map fst pts) (map snd pts) = F64.point_products pts.
Proof.
  induction pts as [|[t d] pts IH]; [reflexivity|].
  cbn [map fst snd F64.products F64.point_products]. now rewrite IH.
Qed.

Lemma trend_slope_closed_form (float_sum : list F64.float -> F64.float)
      (pts : list (Z * F64.float)) :
  F64.trend_slope float_sum (map fst pts) (map snd pts)
  = F64.ols_closed_form float_sum pts.
Proof.
  unfold F64.trend_slope, F64.ols_closed_form. cbv zeta.
  rewrite products_points, length_map, !py_sum_int_Zsum, map_map.
  destruct (F64.point_products pts); cbn [bind]; [|reflexivity].
  destruct (_ =? 0)%Z; reflexivity.
Qed.

Lemma of_int_raises (z : Z) (e : exn) :
  F64.of_int z = Raise e -> e = OverflowError.
Proof.
  unfold F64.of_int. destruct (_ <? _)%Z; [discriminate|].
  intros H. now injection H.
Qed.

Lemma point_products_raises (pts : list (Z * F64.float)) (e : exn) :
  F64.point_products pts = Raise e -> e = OverflowError.
Proof.
  induction pts as [|[t d] pts IH]; [discriminate|].
  cbn [F64.point_products].
  destruct (F64.of_int t) eqn:T; cbn [bind];
    [|intros H; injection H as <-; exact (of_int_raises _ _ T)].
  destruct (F64.point_products pts); cbn [bind]; [discriminate|].
  intros H. injection H as <-. now apply IH.
Qed.

Lemma ols_closed_form_raises (float_sum : list F64.float -> F64.float)
      (pts : list (Z * F64.float)) (e : exn) :
  F64.ols_closed_form float_sum pts = Raise e -> e = OverflowError.
Proof.
  unfold F64.ols_closed_form. cbv zeta.
  destruct (F64.point_products pts) eqn:P; cbn [bind];
    [|intros H; injection H as <-; exact (point_products_raises _ _ P)].
  destruct (_ =? 0)%Z eqn:D; [discriminate|].
  destruct (F64.of_int (Z.of_nat _)) eqn:N; cbn [bind];
    [|intros H; injection H as <-; exact (of_int_raises _ _ N)].
  destruct (F64.of_int (Zsum _)) eqn:T; cbn [bind];
    [|intros H; injection H as <-; exact (of_int_raises _ _ T)].
  unfold F64.div_int.
  destruct (F64.of_int (_ - _)) eqn:X; cbn [bind];
    [|intros H; injection H as <-; exact (of_int_raises _ _ X)].
  rewrite D. discriminate.
Qed.

Lemma stable_sort_of_nonempty {A : Type} (key : A -> Z) (l s : list A) :
  stable_sort_of key l s -> (2 <= List.length l)%nat ->
  exists first rest, s = first :: rest.
Proof.
  intros [P _] H. apply Permutation_length in P.
  destruct s as [|first rest]; [simpl in P; lia|]. now eexists _, _.
Qed.

(** In exact arithmetic the closed form is the least-squares slope, and the
    only one. *)
Lemma exact_slope_ols (pts : list (Z * Q)) (b : Q) :
  slope_denominator (map fst pts) <> 0%Z ->
  (is_ols_slope b pts <-> b == exact_slope pts).
Proof.
  intros D. split; [now apply ols_slope_unique|].
  intros Hb.
  assert (Hne : pts <> []) by (intros ->; now apply D).
  pose proof (pt_count_pos pts Hne) as Hn.
  assert (Hn0 : ~ pt_count pts == 0)
    by (intros H; rewrite H in Hn; now apply Qlt_irrefl in Hn).
  assert (Hd : ~ pt_count pts * pt_sum_t2 pts - pt_sum_t pts * pt_sum_t pts
                 == 0).
  { rewrite <- slope_denominator_points. intros Z0. apply D.
    now apply (inject_Z_injective _ 0%Z). }
  exists ((pt_sum_d pts - b * pt_sum_t pts) / pt_count pts).
  apply normal_equations_ols.
  - rewrite sum_residual_sums. field. exact Hn0.
  - rewrite sum_t_residual_sums, Hb. unfold exact_slope. field.
    split; assumption.
Qed.

(** C2, the claim as worded fails: the slope is computed in floats, and the
    label and the magnitude are those of the rounded slope.  For 0.2 on day
    0 and 0.6 on day 1461 the least-squares slope of the readings gives a
    magnitude below one tenth, hence below the float 0.1 as well, and the
    call answers falling with 0.10000000000000002.  For 20.0 on day 0 and
    22.0 on day 7305 the least-squares slope gives exactly one tenth, and the
    call answers stable with 0.09999999999999999.  Both hold whichever way
    the builtin [sum] adds. *)
Lemma analyze_trend_not_least_squares :
  (F64.analyze_trend F64.sum_left F64.four_year_readings
   = Ok {| F64.trend := "falling";
           F64.trend_magnitude := S754_finite false 7205759403792795 (-56) |}
   /\
   F64.analyze_trend F64.sum_compensated F64.four_year_readings
   = Ok {| F64.trend := "falling";
           F64.trend_magnitude := S754_finite false 7205759403792795 (-56) |}
   /\
   exact_points (F64.day_depth_points (F64.reading 0 F64.d0_2)
                                      F64.four_year_readings)
   = map (fun p => (fst p, Some (snd p))) four_year_points /\
   (forall b, is_ols_slope b four_year_points ->
              Qabs (b * (36525 # 100)) < 1 # 10) /\
   exists q, F64.to_Q F64.c0_1 = Some q /\ 1 # 10 < q)
  /\
  (F64.analyze_trend F64.sum_left F64.twenty_year_readings
   = Ok {| F64.trend := "stable";
           F64.trend_magnitude := S754_finite false 7205759403792793 (-56) |}
   /\
   F64.analyze_trend F64.sum_compensated F64.twenty_year_readings
   = Ok {| F64.trend := "stable";
           F64.trend_magnitude := S754_finite false 7205759403792793 (-56) |}
   /\
   exact_points (F64.day_depth_points (F64.reading 0 F64.d20)
                                      F64.twenty_year_readings)
   = map (fun p => (fst p, Some (snd p))) twenty_year_points /\
   (forall b, is_ols_slope b twenty_year_points ->
              Qabs (b * (36525 # 100)) == 1 # 10 /\ 0 <= b) /\
   exists q, F64.to_Q (S754_finite false 7205759403792793 (-56)) = Some q /\
             q < 1 # 10).
Proof.
  split.
  - split; [vm_compute; reflexivity|]. split; [vm_compute; reflexivity|].
    split; [vm_compute; reflexivity|]. split.
    + intros b H.
      apply exact_slope_ols in H; [|vm_compute; discriminate].
      rewrite H. vm_compute. reflexivity.
    + eexists. split; [vm_compute; reflexivity|]. vm_compute. reflexivity.
  - split; [vm_compute; reflexivity|]. split; [vm_compute; reflexivity|].
    split; [vm_compute; reflexivity|]. split.
    + intros b H.
      apply exact_slope_ols in H; [|vm_compute; discriminate].
      rewrite H. split; [vm_compute; reflexivity|].
      vm_compute. discriminate.
    + eexists. split; [vm_compute; reflexivity|]. vm_compute. reflexivity.
Qed.

(** C2, as the code has it: from two readings on, [analyze_trend] evaluates
    the closed form of the least-squares slope,
    [(n Σtd - Σt Σd) / (n Σt² - (Σt)²)], over the (whole days since the
    first reading, depth) pairs of the readings stably sorted by timestamp,
    with every operation on a depth rounded to a float and 0 taken when all
    the offsets are the same.  The magnitude returned is the float
    [abs(slope * 365.25)]; the trend is stable when the magnitude is below
    the float 0.1, else rising when the slope is below 0, else falling
    (falling also when the slope is NaN).  The call raises only when an
    integer of the formula is too large for a float.  In exact arithmetic
    the closed form is the one slope that minimises the squared residuals. *)
Theorem analyze_trend_closed_form
        (float_sum : list F64.float -> F64.float)
        (wls : list F64.WaterLevel) :
  (2 <= List.length wls)%nat ->
  (exists (sorted_levels : list F64.WaterLevel) (first : F64.WaterLevel),
     stable_sort_of F64.timestamp wls sorted_levels /\
     head sorted_levels = Some first /\
     match F64.ols_closed_form
             float_sum
             (map (fun wl =>
                     (((F64.timestamp wl - F64.timestamp first)
                       / 86400000000)%Z,
                      F64.depth wl)) sorted_levels) with
     | Ok slope =>
         exists r,
           F64.analyze_trend float_sum wls = Ok r /\
           F64.trend_magnitude r
           = SFabs (SFmul 53 1024 slope
                          (S754_finite false 6425545952722944 (-44))) /\
           F64.trend r
           = (if SFltb (F64.trend_magnitude r)
                       (S754_finite false 7205759403792794 (-56))
              then "stable"
              else if SFltb slope (S754_zero false) then "rising"
                   else "falling")%string
     | Raise e =>
         F64.analyze_trend float_sum wls = Raise e /\ e = OverflowError
     end)
  /\
  (forall (pts : list (Z * Q)) (b : Q),
     slope_denominator (map fst pts) <> 0%Z ->
     (is_ols_slope b pts <-> b == exact_slope pts)).
Proof.
  intros H. split; [|intros pts b D; now apply exact_slope_ols].
  pose proof (sorted_by_stable F64.timestamp wls) as S.
  destruct (stable_sort_of_nonempty _ _ _ S H) as [first [rest E]].
  exists (sorted_by F64.timestamp wls), first.
  split; [exact S|]. split; [now rewrite E|].
  unfold F64.analyze_trend.
  destruct (List.length wls <? 2)%nat eqn:L; [apply Nat.ltb_lt in L; lia|].
  cbv zeta. rewrite E. cbn [py_first bind].
  set (pts := map _ (first :: rest)).
  assert (T : F64.day_offsets first (first :: rest) = map fst pts)
    by (unfold pts, F64.day_offsets; rewrite map_map; reflexivity).
  assert (P : map F64.depth (first :: rest) = map snd pts)
    by (unfold pts; rewrite map_map; reflexivity).
  rewrite T, P, trend_slope_closed_form.
  destruct (F64.ols_closed_form float_sum pts) as [slope|e] eqn:C;
    cbn [bind].
  - eexists. split; [reflexivity|]. split; reflexivity.
  - split; [reflexivity|]. exact (ols_closed_form_raises _ _ _ C).
Qed.

Lemma analyze_trend_closed_form_witness :
  exists (sorted_levels : list F64.WaterLevel) (first : F64.WaterLevel),
    stable_sort_of F64.timestamp F64.twenty_year_readings sorted_levels /\
    head sorted_levels = Some first /\
    match F64.ols_closed_form
            F64.sum_left
            (map (fun wl =>
                    (((F64.timestamp wl - F64.timestamp first)
                      / 86400000000)%Z,
                     F64.depth wl)) sorted_levels) with
    | Ok slope =>
        exists r,
          F64.analyze_trend F64.sum_left F64.twenty_year_readings = Ok r /\
          F64.trend_magnitude r
          = SFabs (SFmul 53 1024 slope
                         (S754_finite false 6425545952722944 (-44))) /\
          F64.trend r
          = (if SFltb (F64.trend_magnitude r)
                      (S754_finite false 7205759403792794 (-56))
             then "stable"
             else if SFltb slope (S754_zero false) then "rising"
                  else "falling")%string
    | Raise e =>
        F64.analyze_trend F64.sum_left F64.twenty_year_readings = Raise e /\
        e = OverflowError
    end.
Proof.
  destruct (analyze_trend_closed_form F64.sum_left F64.twenty_year_readings)
    as [X _]; [vm_compute; lia | exact X].
Defined.

(** ** The magnitude is never negative, and can be NaN *)

Lemma SFabs_not_negative (x : F64.float) :
  SFltb (SFabs x) (S754_zero false) = false /\
  (SFabs x = S754_nan \/ SFleb (S754_zero false) (SFabs x) = true).
Proof.
  destruct x as [s|s| |s m e]; cbn; auto.
Qed.

Lemma of_int_returns (z : Z) :
  (Z.abs z < 2 ^ 200)%Z -> exists f, F64.of_int z = Ok f.
Proof.
  intros H. unfold F64.of_int.
  destruct (Z.abs z <? 2 ^ 1024 - 2 ^ 970)%Z eqn:E; [now eexists|].
  apply Z.ltb_ge in E. exfalso.
  assert (B : (2 ^ 200 < 2 ^ 1024 - 2 ^ 970)%Z) by (vm_compute; reflexivity).
  apply (Z.lt_irrefl (Z.abs z)).
  eapply Z.lt_le_trans; [exact H|].
  eapply Z.le_trans; [apply Z.lt_le_incl; exact B | exact E].
Qed.

Lemma point_products_returns (pts : list (Z * F64.float)) :
  (forall p, In p pts -> (Z.abs (fst p) <= 3652059)%Z) ->
  exists tds, F64.point_products pts = Ok tds.
Proof.
  induction pts as [|[t d] pts IH]; intros B; [now eexists|].
  cbn [F64.point_products].
  destruct (of_int_returns t) as [f ->].
  { specialize (B (t, d) (or_introl eq_refl)). cbn [fst] in B.
    eapply Z.le_lt_trans; [exact B|]. vm_compute. reflexivity. }
  destruct IH as [tds ->]; [intros p Hp; apply B; now right|].
  cbn [bind]. now eexists.
Qed.

Lemma Zsum_bound (D : Z) (l : list Z) :
  (forall x, In x l -> (Z.abs x <= D)%Z) ->
  (Z.abs (Zsum l) <= Z.of_nat (List.length l) * D)%Z.
Proof.
  induction l as [|x l IH]; intros B; [cbn; lia|].
  cbn [Zsum List.length].
  assert (Z.abs x <= D)%Z by (apply B; now left).
  assert (Z.abs (Zsum l) <= Z.of_nat (List.length l) * D)%Z
    by (apply IH; intros y Hy; apply B; now right).
  lia.
Qed.

Lemma Zsum_sq_bound (D : Z) (l : list Z) :
  (forall x, In x l -> (Z.abs x <= D)%Z) ->
  (0 <= Zsum (map (fun t => t * t) l) <= Z.of_nat (List.length l) * (D * D))%Z.
Proof.
  induction l as [|x l IH]; intros B; [cbn; lia|].
  cbn [Zsum List.length map].
  assert (Z.abs x <= D)%Z by (apply B; now left).
  assert (0 <= Zsum (map (fun t => t * t) l)
          <= Z.of_nat (List.length l) * (D * D))%Z
    by (apply IH; intros y Hy; apply B; now right).
  assert (0 <= x * x <= D * D)%Z by nia.
  lia.
Qed.

Lemma denominator_bound (n st st2 N D : Z) :
  (0 <= n < N)%Z -> (0 <= D)%Z ->
  (Z.abs st <= n * D)%Z -> (0 <= st2 <= n * (D * D))%Z ->
  (Z.abs (n * st2 - st * st) <= N * N * (D * D))%Z.
Proof.
  intros Hn HD Hst Hst2.
  assert (A : (0 <= n * st2 <= n * (n * (D * D)))%Z) by nia.
  assert (B : (0 <= st * st <= (n * D) * (n * D))%Z) by nia.
  assert (NN : (n * n <= N * N)%Z)
    by (apply Z.mul_le_mono_nonneg; lia).
  assert (DD : (0 <= D * D)%Z) by (apply Z.mul_nonneg_nonneg; lia).
  assert (C : (n * n * (D * D) <= N * N * (D * D))%Z)
    by (apply Z.mul_le_mono_nonneg_r; assumption).
  replace (n * (n * (D * D)))%Z with (n * n * (D * D))%Z in A by ring.
  replace ((n * D) * (n * D))%Z with (n * n * (D * D))%Z in B by ring.
  lia.
Qed.

Lemma day_offset_bound (a b : Z) :
  (datetime_min <= a <= datetime_max)%Z ->
  (datetime_min <= b <= datetime_max)%Z ->
  (Z.abs ((a - b) / 86400000000) <= 3652059)%Z.
Proof.
  unfold datetime_min, datetime_max. intros Ha Hb.
  assert (L : (-3652059 <= (a - b) / 86400000000)%Z)
    by (apply Z.div_le_lower_bound; lia).
  assert (U : ((a - b) / 86400000000 <= 3652059)%Z)
    by (apply Z.lt_succ_r; apply Z.div_lt_upper_bound; lia).
  lia.
Qed.

Lemma ols_closed_form_returns (float_sum : list F64.float -> F64.float)
      (pts : list (Z * F64.float)) :
  (Z.of_nat (List.length pts) < 2 ^ 64)%Z ->
  (forall p, In p pts -> (Z.abs (fst p) <= 3652059)%Z) ->
  exists slope, F64.ols_closed_form float_sum pts = Ok slope.
Proof.
  intros Hn B. unfold F64.ols_closed_form. cbv zeta.
  destruct (point_products_returns pts B) as [tds ->]. cbn [bind].
  destruct (_ =? 0)%Z eqn:Dz; [now eexists|].
  assert (Bt : forall x, In x (map fst pts) -> (Z.abs x <= 3652059)%Z).
  { intros x Hx. apply in_map_iff in Hx. destruct Hx as [p [<- Hp]].
    now apply B. }
  pose proof (Zsum_bound 3652059 (map fst pts) Bt) as S1.
  pose proof (Zsum_sq_bound 3652059 (map fst pts) Bt) as S2.
  rewrite map_map in S2. rewrite length_map in S1, S2.
  set (n := Z.of_nat (List.length pts)) in *.
  set (st := Zsum (map fst pts)) in *.
  set (st2 := Zsum (map (fun p => (fst p * fst p)%Z) pts)) in *.
  assert (N0 : (0 <= n < 2 ^ 64)%Z) by (unfold n; lia).
  destruct (of_int_returns n) as [fn ->].
  { rewrite Z.abs_eq by lia.
    eapply Z.lt_trans; [apply N0|]. vm_compute. reflexivity. }
  cbn [bind].
  destruct (of_int_returns st) as [fst_ ->].
  { eapply Z.le_lt_trans; [exact S1|].
    apply Z.le_lt_trans with (2 ^ 64 * 3652059)%Z; [lia|].
    vm_compute. reflexivity. }
  cbn [bind]. unfold F64.div_int.
  destruct (of_int_returns (n * st2 - st * st)) as [fd ->].
  { pose proof (denominator_bound n st st2 (2 ^ 64) 3652059 N0
                  ltac:(lia) S1 S2) as Dn.
    eapply Z.le_lt_trans; [exact Dn|]. vm_compute. reflexivity. }
  cbn [bind]. rewrite Dz. now eexists.
Qed.

(** C6, the claim as worded fails: for two finite depths of 1e308 a day
    apart the sum of the depths overflows, the numerator of the slope is
    infinity minus infinity, and the magnitude returned is NaN, which is not
    greater than or equal to 0.  It is so whichever way the builtin [sum]
    adds. *)
Lemma analyze_trend_magnitude_nan :
  Forall (fun wl => F64.is_finite (F64.depth wl) = true)
         F64.overflow_readings /\
  F64.analyze_trend F64.sum_left F64.overflow_readings
  = Ok {| F64.trend := "falling"; F64.trend_magnitude := S754_nan |} /\
  F64.analyze_trend F64.sum_compensated F64.overflow_readings
  = Ok {| F64.trend := "falling"; F64.trend_magnitude := S754_nan |} /\
  SFleb (S754_zero false) S754_nan = false.
Proof.
  split; [repeat constructor|].
  split; [vm_compute; reflexivity|].
  split; [vm_compute; reflexivity|]. reflexivity.
Qed.

(** C6, as the code has it: whatever the list of readings, the magnitude
    [analyze_trend] returns is never below 0: it is greater than or equal to
    0, or it is NaN.  The call returns for every list of fewer than 2^64
    readings whose timestamps are datetimes. *)
Theorem analyze_trend_magnitude_not_negative
        (float_sum : list F64.float -> F64.float)
        (wls : list F64.WaterLevel) :
  (forall r,
     F64.analyze_trend float_sum wls = Ok r ->
     SFltb (F64.trend_magnitude r) (S754_zero false) = false /\
     (F64.trend_magnitude r = S754_nan \/
      SFleb (S754_zero false) (F64.trend_magnitude r) = true))
  /\
  ((Z.of_nat (List.length wls) < 2 ^ 64)%Z ->
   (forall wl, In wl wls ->
               (datetime_min <= F64.timestamp wl <= datetime_max)%Z) ->
   exists r, F64.analyze_trend float_sum wls = Ok r).
Proof.
  unfold F64.analyze_trend.
  destruct (List.length wls <? 2)%nat eqn:L.
  - split; [|intros _ _; now eexists].
    intros r H. injection H as <-. cbn. auto.
  - apply Nat.ltb_ge in L. cbv zeta.
    pose proof (sorted_by_stable F64.timestamp wls) as S.
    destruct (stable_sort_of_nonempty _ _ _ S L) as [first [rest E]].
    rewrite E. cbn [py_first bind]. split.
    + intros r H.
      destruct (F64.trend_slope _ _ _) as [slope|e]; [|discriminate].
      cbn [bind] in H. injection H as <-.
      cbn [F64.classify_trend F64.trend_magnitude].
      apply SFabs_not_negative.
    + intros Hn R.
      set (pts := F64.day_depth_points first (first :: rest)).
      assert (T : F64.day_offsets first (first :: rest) = map fst pts)
        by (unfold pts, F64.day_depth_points, F64.day_offsets;
            rewrite map_map; reflexivity).
      assert (P : map F64.depth (first :: rest) = map snd pts)
        by (unfold pts, F64.day_depth_points; rewrite map_map; reflexivity).
      rewrite T, P, trend_slope_closed_form.
      destruct (ols_closed_form_returns float_sum pts) as [slope ->];
        [| |cbn [bind]; now eexists].
      * unfold pts, F64.day_depth_points. rewrite length_map, <- E.
        destruct S as [Perm _]. now rewrite <- (Permutation_length Perm).
      * assert (In_wls : forall wl, In wl (first :: rest) -> In wl wls).
        { intros wl Hwl. destruct S as [Perm _].
          apply (Permutation_in _ (Permutation_sym Perm)).
          now rewrite E. }
        intros p Hp. unfold pts, F64.day_depth_points in Hp.
        apply in_map_iff in Hp. destruct Hp as [wl [<- Hwl]]. cbn [fst].
        pose proof (R wl (In_wls wl Hwl)) as Rw.
        pose proof (R first (In_wls first (or_introl eq_refl))) as Rf.
        now apply day_offset_bound.
Qed.

(** * The alert on binary64 floats *)

(** X6: without a storage percentage the alert falls back on the depth.
    The call never raises and never answers good.  With a well depth that is
    missing or zero the answer is normal; otherwise the percentage is the
    float [current_depth / well_depth * 100], and the answer is critical
    when 80 is below it, else warning when 60 is below it, else normal
    (normal also when the percentage is NaN). *)
Theorem determine_alert_status_fallback
        (trend : string) (current_depth : F64.float)
        (well_depth : option F64.float) :
  exists label,
    F64.determine_alert_status None trend current_depth well_depth
    = Ok label /\
    label <> "good"%string /\
    match well_depth with
    | None => label = "normal"%string
    | Some wd =>
        if SFeqb wd (S754_zero false) then label = "normal"%string
        else
          label
          = (if SFltb (S754_finite false 5629499534213120 (-46))
                      (SFmul 53 1024 (SFdiv 53 1024 current_depth wd)
                             (S754_finite false 7036874417766400 (-46)))
             then "critical"
             else if SFltb (S754_finite false 8444249301319680 (-47))
                           (SFmul 53 1024 (SFdiv 53 1024 current_depth wd)
                                  (S754_finite false 7036874417766400 (-46)))
                  then "warning"
                  else "normal")%string
    end.
Proof.
  unfold F64.determine_alert_status.
  destruct well_depth as [wd|];
    [|eexists; split; [reflexivity|]; split; [discriminate|reflexivity]].
  unfold F64.div, F64.eqb, F64.zero.
  destruct (SFeqb wd (S754_zero false)) eqn:Z0;
    [eexists; split; [reflexivity|]; split; [discriminate|reflexivity]|].
  cbn [bind].
  change (F64.of_small_int 100) with (S754_finite false 7036874417766400 (-46)).
  change (F64.of_small_int 80) with (S754_finite false 5629499534213120 (-46)).
  change (F64.of_small_int 60) with (S754_finite false 8444249301319680 (-47)).
  unfold F64.ltb, F64.mul, F64.prec, F64.emax.
  destruct (SFltb (S754_finite false 5629499534213120 (-46)) _);
    [eexists; split; [reflexivity|]; split; [discriminate|reflexivity]|].
  destruct (SFltb (S754_finite false 8444249301319680 (-47)) _);
    eexists; (split; [reflexivity|]; split; [discriminate|reflexivity]).
Qed.
